(** * The Mover node of au_uav_ros

    A shallow embedding of [src/au_uav_ros/src/mover.cpp]: the three-state
    mode machine, the shared command store (the operator's goal waypoint and
    the single-slot queue of collision-avoidance waypoints), the two message
    callbacks and the publish loop.

    Conventions of the embedding.
    - A ROS [float64] is a binary64 primitive float; the C++ [==] on doubles
      is [PrimFloat.eqb] (so a NaN is equal to nothing, itself included).
    - An [int] / [int32] that is only stored and compared is a [Z].
    - Member functions of [Mover] are computations in a small monad [M] that
      threads the object's fields and records, in order, the effects visible
      outside the object: mutex operations, the 0.25 s sleep, messages
      published on [ca_commands] and calls into the collision-avoidance
      object.
    - Diagnostic output ([fprintf(stderr, ...)], [ROS_INFO], [ROS_ERROR]) and
      the registration of publishers and subscribers are not modelled. *)

From Stdlib Require Import ZArith List Bool Lia.
From Stdlib Require Import PrimFloat FloatOps SpecFloat FloatAxioms.
Import ListNotations.
Local Open Scope Z_scope.

(** ** Messages *)

(** [au_uav_ros::Command].  The message definition is not among the sources;
    the fields are the ones mover.cpp uses.  [param] and [commandID] are only
    ever assigned the literal 2, so they are kept as integers. *)
Module Command.

Record t : Type := mk {
  planeID : Z;
  latitude : float;
  longitude : float;
  altitude : float;
  param : Z;
  commandID : Z
}.

Definition set_planeID (v : Z) (c : t) : t :=
  mk v (latitude c) (longitude c) (altitude c) (param c) (commandID c).

Definition set_latitude (v : float) (c : t) : t :=
  mk (planeID c) v (longitude c) (altitude c) (param c) (commandID c).

Definition set_longitude (v : float) (c : t) : t :=
  mk (planeID c) (latitude c) v (altitude c) (param c) (commandID c).

Definition set_param (v : Z) (c : t) : t :=
  mk (planeID c) (latitude c) (longitude c) (altitude c) v (commandID c).

Definition set_commandID (v : Z) (c : t) : t :=
  mk (planeID c) (latitude c) (longitude c) (altitude c) (param c) v.

End Command.

(** [au_uav_ros::planeIDGetter]: the response part of the identity service,
    with the four fields [Mover::init] reads. *)
Module planeIDGetter.

Record Response : Type := mkResponse {
  planeID : Z;
  initialLatitude : float;
  initialLongitude : float;
  initialAltitude : float
}.

End planeIDGetter.

(** ** What mover.cpp takes from outside *)

(** The constants come from a header that is not among the sources, so they
    are parameters.  The three [META_*] constants are [case] labels, hence
    integers; the other two are compared with doubles.  [double_to_int] is
    the conversion [(int)com.longitude]: truncation for a value in the range
    of [int], left open by the language elsewhere, so it is a parameter
    too and every result below holds for whatever the platform computes. *)
Class StandardDefs : Type := {
  EMERGENCY_PROTOCOL_LAT : float;
  INVALID_GPS_COOR : float;
  META_START_CA_ON_LON : Z;
  META_STOP_LON : Z;
  META_START_CA_OFF_LON : Z;
  double_to_int : float -> Z
}.

(** The collision-avoidance object [ca] is an external collaborator.  It is
    seen through the three member functions mover.cpp calls; since it is a
    member object, each call may change its private state.  [Telemetry]
    is [au_uav_ros::Telemetry], which mover.cpp only hands on to
    [ca.avoid]. *)
Class CollisionAvoidance : Type := {
  Telemetry : Type;
  ca_state : Type;
  ca_init : Z -> ca_state -> ca_state;
  ca_avoid : Telemetry -> ca_state -> Command.t * ca_state;
  ca_setGoalWaypoint : Command.t -> ca_state -> ca_state
}.

(** [enum state]. *)
Inductive state : Type :=
  | ST_RED
  | ST_GREEN_CA_OFF
  | ST_GREEN_CA_ON.

(** The three mutexes of the class. *)
Inductive mutex : Type :=
  | goal_wp_lock
  | ca_wp_lock
  | state_change_lock.

Definition mutex_eqb (a b : mutex) : bool :=
  match a, b with
  | goal_wp_lock, goal_wp_lock => true
  | ca_wp_lock, ca_wp_lock => true
  | state_change_lock, state_change_lock => true
  | _, _ => false
  end.

Section MoverNode.

Context {defs : StandardDefs} {avoidance : CollisionAvoidance}.

(** ** The object and its effects *)

(** The data members of [au_uav_ros::Mover] that mover.cpp reads or writes
    (the ROS handles are left out).  The class declaration is not among the
    sources: [ca_wp] is a sequence with [clear], [push_back], [front],
    [pop_front] and [empty], its front being the head of the list, and the
    three [initial*] members are taken to be doubles. *)
Record Mover : Type := mkMover {
  planeID : Z;
  is_testing : bool;
  current_state : state;
  goal_wp : Command.t;
  ca_wp : list Command.t;
  ca : ca_state;
  initialLat : float;
  initialLong : float;
  initialAlt : float
}.

Definition set_planeID (v : Z) (m : Mover) : Mover :=
  mkMover v (is_testing m) (current_state m) (goal_wp m) (ca_wp m) (ca m)
          (initialLat m) (initialLong m) (initialAlt m).

Definition set_is_testing (v : bool) (m : Mover) : Mover :=
  mkMover (planeID m) v (current_state m) (goal_wp m) (ca_wp m) (ca m)
          (initialLat m) (initialLong m) (initialAlt m).

Definition set_current_state (v : state) (m : Mover) : Mover :=
  mkMover (planeID m) (is_testing m) v (goal_wp m) (ca_wp m) (ca m)
          (initialLat m) (initialLong m) (initialAlt m).

Definition set_goal_wp (v : Command.t) (m : Mover) : Mover :=
  mkMover (planeID m) (is_testing m) (current_state m) v (ca_wp m) (ca m)
          (initialLat m) (initialLong m) (initialAlt m).

Definition set_ca_wp (v : list Command.t) (m : Mover) : Mover :=
  mkMover (planeID m) (is_testing m) (current_state m) (goal_wp m) v (ca m)
          (initialLat m) (initialLong m) (initialAlt m).

Definition set_ca (v : ca_state) (m : Mover) : Mover :=
  mkMover (planeID m) (is_testing m) (current_state m) (goal_wp m) (ca_wp m) v
          (initialLat m) (initialLong m) (initialAlt m).

Definition set_initialLat (v : float) (m : Mover) : Mover :=
  mkMover (planeID m) (is_testing m) (current_state m) (goal_wp m) (ca_wp m)
          (ca m) v (initialLong m) (initialAlt m).

Definition set_initialLong (v : float) (m : Mover) : Mover :=
  mkMover (planeID m) (is_testing m) (current_state m) (goal_wp m) (ca_wp m)
          (ca m) (initialLat m) v (initialAlt m).

Definition set_initialAlt (v : float) (m : Mover) : Mover :=
  mkMover (planeID m) (is_testing m) (current_state m) (goal_wp m) (ca_wp m)
          (ca m) (initialLat m) (initialLong m) v.

(** What a member function does that is visible outside the object. *)
Inductive effect : Type :=
  | Lock (l : mutex)
  | Unlock (l : mutex)
  | Sleep (seconds : float)
  | Publish (com : Command.t)
  | CaInit (id : Z)
  | CaAvoid (telem : Telemetry)
  | CaSetGoalWaypoint (com : Command.t).

(** A member function: from the object before the call to the returned
    value, the object after the call and the effects, oldest first. *)
Definition M (A : Type) : Type := Mover -> A * Mover * list effect.

Definition ret {A : Type} (a : A) : M A := fun m => (a, m, []).

Definition bind {A B : Type} (c : M A) (k : A -> M B) : M B :=
  fun m =>
    match c m with
    | (a, m1, es1) =>
        match k a m1 with
        | (b, m2, es2) => (b, m2, es1 ++ es2)
        end
    end.

Definition gets {A : Type} (f : Mover -> A) : M A := fun m => (f m, m, []).

Definition modify (f : Mover -> Mover) : M unit := fun m => (tt, f m, []).

Definition perform (e : effect) : M unit := fun m => (tt, m, [e]).

Notation "x <- c ;; k" := (bind c (fun x => k))
  (at level 61, c at next level, right associativity).
Notation "c ;; k" := (bind c (fun _ => k))
  (at level 61, right associativity).

(** Reading the result of a call. *)
Definition value_of {A : Type} (r : A * Mover * list effect) : A := fst (fst r).
Definition after {A : Type} (r : A * Mover * list effect) : Mover := snd (fst r).
Definition effects_of {A : Type} (r : A * Mover * list effect) : list effect := snd r.

(** The messages a list of effects puts on [ca_commands], in order. *)
Fixpoint published (es : list effect) : list Command.t :=
  match es with
  | [] => []
  | Publish com :: es' => com :: published es'
  | _ :: es' => published es'
  end.

(** How many times a list of effects acquires the mutex [l]. *)
Fixpoint acquisitions (l : mutex) (es : list effect) : nat :=
  match es with
  | [] => 0%nat
  | Lock l' :: es' =>
      ((if mutex_eqb l l' then 1 else 0) + acquisitions l es')%nat
  | _ :: es' => acquisitions l es'
  end.

(** Whether a list of effects calls into the collision-avoidance object. *)
Fixpoint calls_ca (es : list effect) : bool :=
  match es with
  | [] => false
  | (CaInit _ | CaAvoid _ | CaSetGoalWaypoint _) :: _ => true
  | _ :: es' => calls_ca es'
  end.

(** ** The shared command store *)

(** mover.cpp:41-44, the block that installs a collision-avoidance waypoint
    (the store's "pushAvoidance"): under [ca_wp_lock], [ca_wp.clear()] then
    [ca_wp.push_back(com)]. *)
Definition pushAvoidance (com : Command.t) : M unit :=
  perform (Lock ca_wp_lock) ;;
  modify (set_ca_wp []) ;;
  modify (fun m => set_ca_wp (ca_wp m ++ [com]) m) ;;
  perform (Unlock ca_wp_lock).

(** mover.cpp:210-217, the block that takes the pending waypoint (the
    store's "popAvoidance"): under [ca_wp_lock], test [ca_wp.empty()] and, if
    it is not, take [ca_wp.front()] and [ca_wp.pop_front()].  [None] stands
    for [empty_ca_q == true]. *)
Definition popAvoidance : M (option Command.t) :=
  perform (Lock ca_wp_lock) ;;
  q <- gets ca_wp ;;
  r <- match q with
       | [] => ret None
       | com :: rest => modify (set_ca_wp rest) ;; ret (Some com)
       end ;;
  perform (Unlock ca_wp_lock) ;;
  ret r.

(** ** Callbacks *)

(** The test of mover.cpp:37. *)
Definition is_invalid (com : Command.t) : bool :=
  (Command.latitude com =? INVALID_GPS_COOR)%float
  && (Command.longitude com =? INVALID_GPS_COOR)%float
  && (Command.altitude com =? INVALID_GPS_COOR)%float.

(** [com = ca.avoid(telem)]. *)
Definition call_avoid (telem : Telemetry) : M Command.t :=
  fun m =>
    let r := ca_avoid telem (ca m) in
    (fst r, set_ca (snd r) m, [CaAvoid telem]).

(** [ca.setGoalWaypoint(com)]. *)
Definition call_setGoalWaypoint (com : Command.t) : M unit :=
  fun m => (tt, set_ca (ca_setGoalWaypoint com (ca m)) m, [CaSetGoalWaypoint com]).

(** [ca.init(planeID)]. *)
Definition call_init (id : Z) : M unit :=
  fun m => (tt, set_ca (ca_init id (ca m)) m, [CaInit id]).

(** mover.cpp:26-35, the waypoint the telemetry callback works with. *)
Definition candidate (telem : Telemetry) : M Command.t :=
  testing <- gets is_testing ;;
  if negb testing then call_avoid telem
  else
    perform (Lock goal_wp_lock) ;;
    com <- gets goal_wp ;;
    perform (Unlock goal_wp_lock) ;;
    ret com.

(** [Mover::all_telem_callback]. *)
Definition all_telem_callback (telem : Telemetry) : M unit :=
  com <- candidate telem ;;
  if is_invalid com then ret tt
  else pushAvoidance com.

(** [Mover::gcs_command_callback].  The [switch] has three labels and no
    [default]; the labels of a [switch] are pairwise different, so trying
    them in turn is the same as jumping to the one that matches. *)
Definition gcs_command_callback (com : Command.t) : M unit :=
  id <- gets planeID ;;
  if id =? Command.planeID com then
    if (Command.latitude com =? EMERGENCY_PROTOCOL_LAT)%float then
      let incomingCommand := double_to_int (Command.longitude com) in
      if incomingCommand =? META_START_CA_ON_LON then
        perform (Lock state_change_lock) ;;
        modify (set_current_state ST_GREEN_CA_ON) ;;
        perform (Unlock state_change_lock)
      else if incomingCommand =? META_STOP_LON then
        perform (Lock state_change_lock) ;;
        modify (set_current_state ST_RED) ;;
        perform (Unlock state_change_lock)
      else if incomingCommand =? META_START_CA_OFF_LON then
        perform (Lock state_change_lock) ;;
        modify (set_current_state ST_GREEN_CA_OFF) ;;
        perform (Unlock state_change_lock)
      else ret tt
    else
      perform (Lock goal_wp_lock) ;;
      modify (set_goal_wp com) ;;
      perform (Unlock goal_wp_lock) ;;
      call_setGoalWaypoint com
  else ret tt.

(** ** Start-up *)

(** [Mover::init].  [_test] is the flag of the same name; [call] is what
    [IDclient.call(srv)] gives: [Some] response when the call succeeds,
    [None] when it fails (it is not made at all when [_test] is set). *)
Definition init (_test : bool) (call : option planeIDGetter.Response) : M bool :=
  ok <- (if _test then
           modify (set_planeID 999) ;; ret true
         else
           match call with
           | Some response =>
               modify (set_planeID (planeIDGetter.planeID response)) ;;
               modify (fun m => set_goal_wp (Command.set_planeID (planeID m) (goal_wp m)) m) ;;
               modify (set_initialLat (planeIDGetter.initialLatitude response)) ;;
               modify (fun m => set_goal_wp (Command.set_latitude (initialLat m) (goal_wp m)) m) ;;
               modify (set_initialLong (planeIDGetter.initialLongitude response)) ;;
               modify (fun m => set_goal_wp (Command.set_longitude (initialLong m) (goal_wp m)) m) ;;
               modify (set_initialAlt (planeIDGetter.initialLatitude response)) ;;
               modify (fun m => set_goal_wp (Command.set_latitude (initialAlt m) (goal_wp m)) m) ;;
               modify (fun m => set_goal_wp (Command.set_param 2 (goal_wp m)) m) ;;
               modify (fun m => set_goal_wp (Command.set_commandID 2 (goal_wp m)) m) ;;
               ret true
           | None => ret false
           end) ;;
  if ok then
    id <- gets planeID ;;
    call_init id ;;
    modify (set_current_state ST_RED) ;;
    modify (set_is_testing _test) ;;
    ret true
  else ret false.

(** ** The publish loop *)

(** [Mover::goalCommandPublish]. *)
Definition goalCommandPublish : M unit :=
  perform (Lock goal_wp_lock) ;;
  com <- gets goal_wp ;;
  perform (Unlock goal_wp_lock) ;;
  perform (Publish com).

(** [Mover::caCommandPublish]. *)
Definition caCommandPublish : M unit :=
  r <- popAvoidance ;;
  match r with
  | Some com => perform (Publish com)
  | None => ret tt
  end.

(** One iteration of the [while] of [Mover::move].  The state is copied
    into [temp] under the lock, and the [switch] then reads [current_state]
    again. *)
Definition move_iteration : M unit :=
  perform (Lock state_change_lock) ;;
  temp <- gets current_state ;;
  perform (Unlock state_change_lock) ;;
  switched <- gets current_state ;;
  match switched with
  | ST_RED => ret tt
  | ST_GREEN_CA_OFF => perform (Sleep 0.25%float) ;; goalCommandPublish
  | ST_GREEN_CA_ON => perform (Sleep 0.25%float) ;; caCommandPublish
  end.

(** [Mover::move] for as long as [ros::ok()] answers true: [ticks] is the
    number of iterations made before shutdown. *)
Fixpoint move (ticks : nat) : M unit :=
  match ticks with
  | O => ret tt
  | S n => move_iteration ;; move n
  end.

(** ** The two threads together *)

(** [Mover::run] starts a thread that dispatches the callbacks one at a time
    and calls [move] on its own thread.  An execution is a sequence of
    activities: the delivery of a telemetry message, the delivery of a
    ground-control command, or one iteration of the publish loop.

    An iteration is one step here.  In the program a callback can also run
    while an iteration sleeps, between the [switch] and the publish
    function; what the publish functions do in whatever state they find is
    stated for them separately, since they do not look at the mode again.
    The execution in which callbacks are served between the steps of an
    iteration is [interleave], further down. *)
Inductive activity : Type :=
  | Telem (telem : Telemetry)
  | Gcs (com : Command.t)
  | Tick.

Definition dispatch (a : activity) : M unit :=
  match a with
  | Telem telem => all_telem_callback telem
  | Gcs com => gcs_command_callback com
  | Tick => move_iteration
  end.

Fixpoint run (acts : list activity) : M unit :=
  match acts with
  | [] => ret tt
  | a :: rest => dispatch a ;; run rest
  end.

(** The two outer tests of [gcs_command_callback], for the plane [id]: a
    command the callback takes as a mode request, and one it takes as a new
    goal waypoint. *)
Definition mode_request (id : Z) (a : activity) : bool :=
  match a with
  | Gcs com =>
      (id =? Command.planeID com)
      && (Command.latitude com =? EMERGENCY_PROTOCOL_LAT)%float
  | _ => false
  end.

Definition goal_update (id : Z) (a : activity) : bool :=
  match a with
  | Gcs com =>
      (id =? Command.planeID com)
      && negb (Command.latitude com =? EMERGENCY_PROTOCOL_LAT)%float
  | _ => false
  end.

Definition is_tick (a : activity) : bool :=
  match a with
  | Tick => true
  | _ => false
  end.

(** The labels of the [switch] are pairwise different (C++ rejects a
    [switch] with a repeated label). *)
Definition labels_distinct : Prop :=
  META_START_CA_ON_LON <> META_STOP_LON
  /\ META_START_CA_ON_LON <> META_START_CA_OFF_LON
  /\ META_STOP_LON <> META_START_CA_OFF_LON.

(** The reading of "the telemetry handler never removes a pending entry":
    whatever is in the queue before [all_telem_callback] is still in it
    afterwards. *)
Definition telemetry_keeps_pending : Prop :=
  forall (telem : Telemetry) (m : Mover) (pending : Command.t),
    In pending (ca_wp m) ->
    In pending (ca_wp (after (all_telem_callback telem m))).

(** ** From start to shutdown *)

(** [main]: [init] and, only when it answers true, [Mover::run].  [is_test]
    is the value of the parameter "testing", [call] the outcome of the
    identity service and [acts] the execution of the two threads up to
    shutdown. *)
Definition main (is_test : bool) (call : option planeIDGetter.Response)
    (acts : list activity) : M unit :=
  ok <- init is_test call ;;
  if ok then run acts else ret tt.

(** ** Reading a list of effects *)

(** The mutex discipline.  Going through the effects with the mutex that is
    held, if any: acquiring while one is held, releasing another one than
    the one held, and sleeping, publishing or calling the collision-avoidance
    object while one is held are violations ([None]); otherwise the result
    is the mutex held at the end. *)
Fixpoint lock_discipline (held : option mutex) (es : list effect)
    : option (option mutex) :=
  match es with
  | [] => Some held
  | Lock l :: es' =>
      match held with
      | None => lock_discipline (Some l) es'
      | Some _ => None
      end
  | Unlock l :: es' =>
      match held with
      | Some l' => if mutex_eqb l l' then lock_discipline None es' else None
      | None => None
      end
  | _ :: es' =>
      match held with
      | None => lock_discipline None es'
      | Some _ => None
      end
  end.

(** The pace of publishing.  Going through the effects with whether the
    thread has slept a quarter of a second or more since it last published:
    publishing without having slept is a violation ([None]). *)
Fixpoint pacing (slept : bool) (es : list effect) : option bool :=
  match es with
  | [] => Some slept
  | Sleep seconds :: es' =>
      pacing (slept || (0.25 <=? seconds)%float) es'
  | Publish _ :: es' => if slept then pacing false es' else None
  | _ :: es' => pacing slept es'
  end.

(** The calls of [ca.avoid] and the waypoints given to
    [ca.setGoalWaypoint], in order. *)
Fixpoint avoid_calls (es : list effect) : list Telemetry :=
  match es with
  | [] => []
  | CaAvoid telem :: es' => telem :: avoid_calls es'
  | _ :: es' => avoid_calls es'
  end.

Fixpoint goals_given (es : list effect) : list Command.t :=
  match es with
  | [] => []
  | CaSetGoalWaypoint com :: es' => com :: goals_given es'
  | _ :: es' => goals_given es'
  end.

(** ** Reading an execution *)

(** The telemetry samples delivered, in order. *)
Fixpoint samples (acts : list activity) : list Telemetry :=
  match acts with
  | [] => []
  | Telem telem :: rest => telem :: samples rest
  | _ :: rest => samples rest
  end.

(** The commands delivered that are goal updates for the plane [id], in
    order. *)
Fixpoint goal_commands (id : Z) (acts : list activity) : list Command.t :=
  match acts with
  | [] => []
  | Gcs com :: rest =>
      if goal_update id (Gcs com) then com :: goal_commands id rest
      else goal_commands id rest
  | _ :: rest => goal_commands id rest
  end.

(** The mode a command asks for: the [switch] of [gcs_command_callback]
    as a table, [None] when no label matches. *)
Definition mode_of_code (code : Z) : option state :=
  if code =? META_START_CA_ON_LON then Some ST_GREEN_CA_ON
  else if code =? META_STOP_LON then Some ST_RED
  else if code =? META_START_CA_OFF_LON then Some ST_GREEN_CA_OFF
  else None.

(** The modes asked for by the commands delivered for the plane [id], in
    order. *)
Fixpoint modes_requested (id : Z) (acts : list activity) : list state :=
  match acts with
  | [] => []
  | Gcs com :: rest =>
      if mode_request id (Gcs com) then
        match mode_of_code (double_to_int (Command.longitude com)) with
        | Some s => s :: modes_requested id rest
        | None => modes_requested id rest
        end
      else modes_requested id rest
  | _ :: rest => modes_requested id rest
  end.

(** ** The publish thread, step by step *)

(** Where the publish thread is inside an iteration of [Mover::move]:
    before the snapshot of line 171, between the snapshot and the [switch]
    of line 175, or asleep in one of the two green branches, before the call
    of its publish function.  The callbacks run on the other thread and can
    be served between any two of these points. *)
Inductive loop_point : Type :=
  | AtTop
  | Snapshot (temp : state)
  | AsleepGoal
  | AsleepCa.


(** One step of the publish thread: the snapshot under [state_change_lock];
    the [switch], which reads [current_state] again and starts the sleep in
    the green branches; and, after the sleep, the publish function of the
    branch taken, whatever the mode has become. *)
Definition loop_step (pt : loop_point) : M loop_point :=
  match pt with
  | AtTop =>
      perform (Lock state_change_lock) ;;
      temp <- gets current_state ;;
      perform (Unlock state_change_lock) ;;
      ret (Snapshot temp)
  | Snapshot temp =>
      switched <- gets current_state ;;
      match switched with
      | ST_RED => ret AtTop
      | ST_GREEN_CA_OFF => perform (Sleep 0.25%float) ;; ret AsleepGoal
      | ST_GREEN_CA_ON => perform (Sleep 0.25%float) ;; ret AsleepCa
      end
  | AsleepGoal => goalCommandPublish ;; ret AtTop
  | AsleepCa => caCommandPublish ;; ret AtTop
  end.

(** The two callbacks the other thread serves. *)
Inductive callback : Type :=
  | OnTelem (telem : Telemetry)
  | OnGcs (com : Command.t).

Definition serve (c : callback) : M unit :=
  match c with
  | OnTelem telem => all_telem_callback telem
  | OnGcs com => gcs_command_callback com
  end.


(** What happens next in the process: a callback is served, or the publish
    thread advances by one step. *)
Inductive event : Type :=
  | Serve (c : callback)
  | Advance.

Definition occur (e : event) (pt : loop_point) : M loop_point :=
  match e with
  | Serve c => serve c ;; ret pt
  | Advance => loop_step pt
  end.

(** The two threads interleaved, from the publish thread at [pt]; the value
    is where the publish thread is at the end. *)
Fixpoint interleave (events : list event) (pt : loop_point) : M loop_point :=
  match events with
  | [] => ret pt
  | e :: rest => pt' <- occur e pt ;; interleave rest pt'
  end.


(** The number of steps of the iteration that starts in the state [m]. *)
Definition iteration_steps (m : Mover) : nat :=
  match current_state m with
  | ST_RED => 2
  | _ => 3
  end.

End MoverNode.

Arguments Mover {avoidance}.
Arguments M {avoidance} A.

(** ** A concrete configuration

    Sample values for what the sources leave open, used to run the model. *)
Module Fixture.

(** [(int)x] as an x86-64 build computes it: truncation towards zero, and
    the smallest [int] when the value is a NaN, an infinity or out of
    range. *)
Definition INT_MIN : Z := -2147483648.
Definition INT_MAX : Z := 2147483647.

Definition truncate (x : float) : Z :=
  match Prim2SF x with
  | S754_zero _ => 0
  | S754_finite negative mantissa exponent =>
      let magnitude :=
        if 0 <=? exponent then Z.shiftl (Zpos mantissa) exponent
        else Z.shiftr (Zpos mantissa) (- exponent) in
      let v := if negative then - magnitude else magnitude in
      if (INT_MIN <=? v) && (v <=? INT_MAX) then v else INT_MIN
  | _ => INT_MIN
  end.

#[export] Instance defs : StandardDefs := {|
  EMERGENCY_PROTOCOL_LAT := (-1000)%float;
  INVALID_GPS_COOR := (-2000)%float;
  META_START_CA_ON_LON := 1;
  META_STOP_LON := 2;
  META_START_CA_OFF_LON := 3;
  double_to_int := truncate
|}.

(** A stand-in for the collision-avoidance object: a telemetry sample is a
    position, the answer to it is a waypoint at that position for the
    plane the object was initialized with; the object remembers that plane
    and the last goal it was given. *)
Record position : Type := mkPosition {
  lat : float;
  lon : float;
  alt : float
}.

Record stub : Type := mkStub {
  stub_id : Z;
  stub_goal : option Command.t
}.

#[export] Instance avoidance : CollisionAvoidance := {|
  Telemetry := position;
  ca_state := stub;
  ca_init := fun id s => mkStub id (stub_goal s);
  ca_avoid := fun telem s =>
    (Command.mk (stub_id s) (lat telem) (lon telem) (alt telem) 2 2, s);
  ca_setGoalWaypoint := fun com s => mkStub (stub_id s) (Some com)
|}.

(** A freshly constructed message: every field zero. *)
Definition zero_command : Command.t := Command.mk 0 0%float 0%float 0%float 0 0.

(** A freshly constructed node, before [init]. *)
Definition constructed : Mover :=
  mkMover 0 false ST_RED zero_command [] (mkStub 0 None) 0%float 0%float 0%float.

(** Plane 7 after a successful start-up at (1, 2, 3). *)
Definition response7 : planeIDGetter.Response :=
  planeIDGetter.mkResponse 7 1%float 2%float 3%float.

Definition started : Mover := after (init false (Some response7) constructed).

Definition goal7 : Command.t := Command.mk 7 1%float 2%float 3%float 0 0.
Definition avoid7 : Command.t := Command.mk 7 5%float 6%float 7%float 2 2.
Definition sample7 : position := mkPosition 5%float 6%float 7%float.

(** Plane 7 in each of the three modes, goal waypoint [goal7]. *)
Definition halted : Mover := set_goal_wp goal7 started.
Definition direct : Mover := set_current_state ST_GREEN_CA_OFF halted.
Definition guided : Mover := set_current_state ST_GREEN_CA_ON halted.

(** A meta command for plane [id] with [code] in its longitude. *)
Definition meta (id : Z) (code : float) : Command.t :=
  Command.mk id (-1000)%float code 0%float 0 0.

(** An earlier telemetry sample, the waypoint it yields, and the guided
    node once that waypoint is pending. *)
Definition sample4 : position := mkPosition 4%float 4%float 4%float.
Definition avoid4 : Command.t := Command.mk 7 4%float 4%float 4%float 2 2.
Definition guided_pending : Mover := after (all_telem_callback sample4 guided).

(** A new goal waypoint for plane 7. *)
Definition goal8 : Command.t := Command.mk 7 8%float 8%float 8%float 0 0.

End Fixture.


(** * Properties *)

Section MoverFacts.

Context {defs : StandardDefs} {avoidance : CollisionAvoidance}.

(** Unfolds the monad and the member functions, leaving the tests on the
    object's fields and on the incoming message. *)
Ltac exec :=
  cbv [move_iteration goalCommandPublish caCommandPublish popAvoidance
       pushAvoidance all_telem_callback candidate gcs_command_callback
       call_avoid call_setGoalWaypoint call_init dispatch
       bind ret gets modify perform value_of after effects_of];
  cbn [fst snd app].

(** ** Sequencing *)

(** A sequence read off its two parts. *)
Lemma bind_unfold {A B : Type} (c : M A) (k : A -> M B) (m : Mover) :
  bind c k m
  = (value_of (k (value_of (c m)) (after (c m))),
     after (k (value_of (c m)) (after (c m))),
     effects_of (c m) ++ effects_of (k (value_of (c m)) (after (c m)))).
Proof.
  unfold bind, after, value_of, effects_of.
  destruct (c m) as [[a m1] es1]. cbn [fst snd].
  destruct (k a m1) as [[b m2] es2]. reflexivity.
Qed.

Lemma published_app (es fs : list effect) :
  published (es ++ fs) = published es ++ published fs.
Proof.
  induction es as [|e es IH]; [reflexivity|].
  destruct e; cbn [app published]; rewrite IH; reflexivity.
Qed.

Lemma acquisitions_app (l : mutex) (es fs : list effect) :
  acquisitions l (es ++ fs) = (acquisitions l es + acquisitions l fs)%nat.
Proof.
  induction es as [|e es IH]; [reflexivity|].
  destruct e; cbn [app acquisitions]; rewrite IH; lia.
Qed.

Lemma run_cons (a : activity) (acts : list activity) (m : Mover) :
  run (a :: acts) m
  = (tt, after (run acts (after (dispatch a m))),
     effects_of (dispatch a m) ++ effects_of (run acts (after (dispatch a m)))).
Proof.
  cbn [run]. rewrite bind_unfold.
  destruct (value_of (run acts (after (dispatch a m)))). reflexivity.
Qed.

(** ** One iteration of the publish loop, mode by mode *)

Lemma move_iteration_red (m : Mover) :
  current_state m = ST_RED ->
  move_iteration m = (tt, m, [Lock state_change_lock; Unlock state_change_lock]).
Proof. intros Hs. exec. rewrite Hs. reflexivity. Qed.

Lemma move_iteration_ca_off (m : Mover) :
  current_state m = ST_GREEN_CA_OFF ->
  move_iteration m
  = (tt, m, [Lock state_change_lock; Unlock state_change_lock;
             Sleep 0.25%float;
             Lock goal_wp_lock; Unlock goal_wp_lock; Publish (goal_wp m)]).
Proof. intros Hs. exec. rewrite Hs. reflexivity. Qed.

Lemma move_iteration_ca_on_empty (m : Mover) :
  current_state m = ST_GREEN_CA_ON ->
  ca_wp m = [] ->
  move_iteration m
  = (tt, m, [Lock state_change_lock; Unlock state_change_lock;
             Sleep 0.25%float;
             Lock ca_wp_lock; Unlock ca_wp_lock]).
Proof. intros Hs Hq. exec. rewrite Hs. cbn. rewrite Hq. reflexivity. Qed.

Lemma move_iteration_ca_on_pending (m : Mover) (com : Command.t) (rest : list Command.t) :
  current_state m = ST_GREEN_CA_ON ->
  ca_wp m = com :: rest ->
  move_iteration m
  = (tt, set_ca_wp rest m,
     [Lock state_change_lock; Unlock state_change_lock;
      Sleep 0.25%float;
      Lock ca_wp_lock; Unlock ca_wp_lock; Publish com]).
Proof. intros Hs Hq. exec. rewrite Hs. cbn. rewrite Hq. reflexivity. Qed.

(** ** What each activity leaves alone *)

(** The telemetry callback publishes nothing and touches neither the plane
    id, nor the mode, nor the goal waypoint. *)
Lemma telem_frame (telem : Telemetry) (m : Mover) :
  let m' := after (all_telem_callback telem m) in
  planeID m' = planeID m
  /\ current_state m' = current_state m
  /\ goal_wp m' = goal_wp m
  /\ published (effects_of (all_telem_callback telem m)) = [].
Proof.
  exec. destruct (is_testing m); cbn;
    match goal with |- context [is_invalid ?c] => destruct (is_invalid c) end;
    cbn; repeat split; reflexivity.
Qed.

(** The command callback publishes nothing and touches neither the plane
    id nor the queue; the mode changes only on a mode request and the goal
    waypoint only on a goal update. *)
Lemma gcs_frame (com : Command.t) (m : Mover) :
  let m' := after (gcs_command_callback com m) in
  planeID m' = planeID m
  /\ ca_wp m' = ca_wp m
  /\ published (effects_of (gcs_command_callback com m)) = []
  /\ (mode_request (planeID m) (Gcs com) = false -> current_state m' = current_state m)
  /\ (goal_update (planeID m) (Gcs com) = false -> goal_wp m' = goal_wp m).
Proof.
  exec. cbn [mode_request goal_update].
  destruct (planeID m =? Command.planeID com);
    [|cbn; repeat split; reflexivity].
  destruct (Command.latitude com =? EMERGENCY_PROTOCOL_LAT)%float; cbn [andb negb].
  - destruct (double_to_int (Command.longitude com) =? META_START_CA_ON_LON);
      [|destruct (double_to_int (Command.longitude com) =? META_STOP_LON);
        [|destruct (double_to_int (Command.longitude com) =? META_START_CA_OFF_LON)]];
      cbn; repeat split; solve [reflexivity | discriminate].
  - cbn; repeat split; solve [reflexivity | discriminate].
Qed.

(** An iteration of the publish loop touches nothing but the queue. *)
Lemma tick_frame (m : Mover) :
  let m' := after (move_iteration m) in
  planeID m' = planeID m
  /\ current_state m' = current_state m
  /\ goal_wp m' = goal_wp m
  /\ ca m' = ca m.
Proof.
  exec. destruct (current_state m) eqn:Hs; cbn;
    [repeat split; solve [reflexivity | exact Hs] ..|].
  destruct (ca_wp m); cbn; repeat split; solve [reflexivity | exact Hs].
Qed.

Lemma dispatch_frame (a : activity) (m : Mover) :
  let m' := after (dispatch a m) in
  planeID m' = planeID m
  /\ (mode_request (planeID m) a = false -> current_state m' = current_state m)
  /\ (goal_update (planeID m) a = false -> goal_wp m' = goal_wp m).
Proof.
  destruct a as [telem|com|]; cbn [dispatch].
  - destruct (telem_frame telem m) as (Hid & Hs & Hg & _). auto.
  - destruct (gcs_frame com m) as (Hid & _ & _ & Hs & Hg). auto.
  - destruct (tick_frame m) as (Hid & Hs & Hg & _). auto.
Qed.

Lemma dispatch_published (a : activity) (m : Mover) :
  published (effects_of (dispatch a m))
  = if is_tick a then published (effects_of (move_iteration m)) else [].
Proof.
  destruct a as [telem|com|]; cbn [dispatch is_tick].
  - apply telem_frame.
  - apply gcs_frame.
  - reflexivity.
Qed.

(** ** Executions *)

(** While no mode request for this plane is delivered, a halted node
    publishes nothing, whatever else is delivered and however often the
    loop runs. *)
Lemma run_red_silent (acts : list activity) :
  forall m : Mover,
    current_state m = ST_RED ->
    forallb (fun a => negb (mode_request (planeID m) a)) acts = true ->
    published (effects_of (run acts m)) = [].
Proof.
  induction acts as [|a acts IH]; intros m Hs Hq; [reflexivity|].
  cbn [forallb] in Hq. apply andb_true_iff in Hq. destruct Hq as [Ha Hq].
  apply negb_true_iff in Ha.
  destruct (dispatch_frame a m) as (Hid & Hmode & _).
  rewrite run_cons. cbn [effects_of snd]. rewrite published_app.
  rewrite IH.
  - rewrite dispatch_published. destruct (is_tick a); [|reflexivity].
    rewrite (move_iteration_red m Hs). reflexivity.
  - rewrite (Hmode Ha). exact Hs.
  - rewrite Hid. exact Hq.
Qed.

(** While neither a mode request nor a goal update for this plane is
    delivered, a node in [ST_GREEN_CA_OFF] publishes its goal waypoint once
    per iteration of the loop, and nothing else. *)
Lemma run_ca_off_keepalive (acts : list activity) :
  forall m : Mover,
    current_state m = ST_GREEN_CA_OFF ->
    forallb (fun a => negb (mode_request (planeID m) a)
                      && negb (goal_update (planeID m) a)) acts = true ->
    published (effects_of (run acts m))
    = repeat (goal_wp m) (length (filter is_tick acts)).
Proof.
  induction acts as [|a acts IH]; intros m Hs Hq; [reflexivity|].
  cbn [forallb] in Hq. apply andb_true_iff in Hq. destruct Hq as [Ha Hq].
  apply andb_true_iff in Ha. destruct Ha as [Hm Hg].
  apply negb_true_iff in Hm. apply negb_true_iff in Hg.
  destruct (dispatch_frame a m) as (Hid & Hmode & Hgoal).
  rewrite run_cons. cbn [effects_of snd]. rewrite published_app.
  rewrite IH.
  - rewrite (Hgoal Hg). rewrite dispatch_published. cbn [filter].
    destruct (is_tick a); [|reflexivity].
    rewrite (move_iteration_ca_off m Hs). reflexivity.
  - rewrite (Hmode Hm). exact Hs.
  - rewrite Hid. exact Hq.
Qed.

Lemma move_succ (ticks : nat) (m : Mover) :
  move (S ticks) m
  = (tt, after (move ticks (after (move_iteration m))),
     effects_of (move_iteration m)
     ++ effects_of (move ticks (after (move_iteration m)))).
Proof.
  cbn [move]. rewrite bind_unfold.
  destruct (value_of (move ticks (after (move_iteration m)))). reflexivity.
Qed.

(** ** Start-up *)

(** What a successful [init] leaves in the object.  The altitude of the
    goal waypoint is the one it had before the call: line 129 assigns
    [goal_wp.latitude] a second time, from [initialLatitude], and
    [initialAlt] receives that latitude too. *)
Lemma init_success (response : planeIDGetter.Response) (m : Mover) :
  init false (Some response) m
  = (true,
     mkMover (planeIDGetter.planeID response) false ST_RED
       (Command.mk (planeIDGetter.planeID response)
          (planeIDGetter.initialLatitude response)
          (planeIDGetter.initialLongitude response)
          (Command.altitude (goal_wp m)) 2 2)
       (ca_wp m)
       (ca_init (planeIDGetter.planeID response) (ca m))
       (planeIDGetter.initialLatitude response)
       (planeIDGetter.initialLongitude response)
       (planeIDGetter.initialLatitude response),
     [CaInit (planeIDGetter.planeID response)]).
Proof. reflexivity. Qed.

Lemma init_failure (m : Mover) : init false None m = (false, m, []).
Proof. reflexivity. Qed.

Lemma init_test (call : option planeIDGetter.Response) (m : Mover) :
  init true call m
  = (true,
     mkMover 999 true ST_RED (goal_wp m) (ca_wp m) (ca_init 999 (ca m))
       (initialLat m) (initialLong m) (initialAlt m),
     [CaInit 999]).
Proof. reflexivity. Qed.

(** ** The telemetry callback and the queue *)

(** The candidate is the goal waypoint when testing and the answer of
    [ca.avoid] otherwise; computing it leaves the queue alone and does not
    acquire [ca_wp_lock]. *)
Lemma candidate_frame (telem : Telemetry) (m : Mover) :
  value_of (candidate telem m)
  = (if is_testing m then goal_wp m else fst (ca_avoid telem (ca m)))
  /\ ca_wp (after (candidate telem m)) = ca_wp m
  /\ acquisitions ca_wp_lock (effects_of (candidate telem m)) = 0%nat.
Proof. exec. destruct (is_testing m); cbn; repeat split; reflexivity. Qed.

(** The callback as a whole: the candidate, then nothing more if it is the
    invalid waypoint, and the replacement of the queue otherwise. *)
Lemma telem_unfold (telem : Telemetry) (m : Mover) :
  let c := candidate telem m in
  all_telem_callback telem m
  = if is_invalid (value_of c)
    then (tt, after c, effects_of c)
    else (tt, set_ca_wp [value_of c] (after c),
          effects_of c ++ [Lock ca_wp_lock; Unlock ca_wp_lock]).
Proof.
  exec. destruct (is_testing m); cbn;
    match goal with |- context [is_invalid ?c] => destruct (is_invalid c) end;
    reflexivity.
Qed.

Lemma telem_queue (telem : Telemetry) (m : Mover) :
  ca_wp (after (all_telem_callback telem m))
  = if is_invalid (value_of (candidate telem m))
    then ca_wp m
    else [value_of (candidate telem m)].
Proof.
  rewrite telem_unfold. cbv zeta.
  destruct (is_invalid (value_of (candidate telem m))); [|reflexivity].
  apply candidate_frame.
Qed.

(** The two blocks of the store, in closed form. *)
Lemma pushAvoidance_unfold (com : Command.t) (m : Mover) :
  pushAvoidance com m
  = (tt, set_ca_wp [com] m, [Lock ca_wp_lock; Unlock ca_wp_lock]).
Proof. reflexivity. Qed.

Lemma popAvoidance_unfold (m : Mover) :
  popAvoidance m
  = match ca_wp m with
    | [] => (None, m, [Lock ca_wp_lock; Unlock ca_wp_lock])
    | com :: rest =>
        (Some com, set_ca_wp rest m, [Lock ca_wp_lock; Unlock ca_wp_lock])
    end.
Proof. exec. destruct (ca_wp m); reflexivity. Qed.

Lemma popAvoidance_queue (m : Mover) :
  ca_wp (after (popAvoidance m)) = tl (ca_wp m).
Proof.
  rewrite popAvoidance_unfold. destruct (ca_wp m) eqn:Hq; [exact Hq|reflexivity].
Qed.

(** The two publish functions, in closed form.  Neither looks at the mode:
    they act on the object as it is when they are called, after the sleep. *)
Lemma goalCommandPublish_unfold (m : Mover) :
  goalCommandPublish m
  = (tt, m, [Lock goal_wp_lock; Unlock goal_wp_lock; Publish (goal_wp m)]).
Proof. reflexivity. Qed.

Lemma caCommandPublish_unfold (m : Mover) :
  caCommandPublish m
  = match ca_wp m with
    | [] => (tt, m, [Lock ca_wp_lock; Unlock ca_wp_lock])
    | com :: rest =>
        (tt, set_ca_wp rest m,
         [Lock ca_wp_lock; Unlock ca_wp_lock; Publish com])
    end.
Proof. exec. destruct (ca_wp m); reflexivity. Qed.

(** In [ST_GREEN_CA_ON] with at most one pending entry, an iteration
    publishes what is pending and leaves the queue empty. *)
Lemma guided_tick_drains (m : Mover) :
  current_state m = ST_GREEN_CA_ON ->
  (length (ca_wp m) <= 1)%nat ->
  current_state (after (move_iteration m)) = ST_GREEN_CA_ON
  /\ ca_wp (after (move_iteration m)) = []
  /\ published (effects_of (move_iteration m)) = ca_wp m.
Proof.
  intros Hs Hlen. destruct (ca_wp m) as [|c [|c' q]] eqn:Hq.
  - rewrite (move_iteration_ca_on_empty m Hs Hq). cbn. auto.
  - rewrite (move_iteration_ca_on_pending m c [] Hs Hq). cbn. auto.
  - cbn in Hlen. lia.
Qed.

(** ** The single-slot queue *)

Lemma single_slot_dispatch (a : activity) (m : Mover) :
  (length (ca_wp m) <= 1)%nat ->
  (length (ca_wp (after (dispatch a m))) <= 1)%nat.
Proof.
  intros Hq. destruct a as [telem|com|]; cbn [dispatch].
  - rewrite telem_queue.
    destruct (is_invalid (value_of (candidate telem m))); [exact Hq|cbn; lia].
  - destruct (gcs_frame com m) as (_ & Hca & _). rewrite Hca. exact Hq.
  - destruct (current_state m) eqn:Hs.
    + rewrite (move_iteration_red m Hs). exact Hq.
    + rewrite (move_iteration_ca_off m Hs). exact Hq.
    + destruct (guided_tick_drains m Hs Hq) as (_ & Hempty & _).
      rewrite Hempty. cbn. lia.
Qed.

(** From a queue with at most one entry, no execution reaches a queue with
    more than one. *)
Lemma single_slot_run (acts : list activity) :
  forall m : Mover,
    (length (ca_wp m) <= 1)%nat ->
    (length (ca_wp (after (run acts m))) <= 1)%nat.
Proof.
  induction acts as [|a acts IH]; intros m Hq; [exact Hq|].
  rewrite run_cons. cbn [after fst snd].
  apply IH, single_slot_dispatch, Hq.
Qed.

(** [init] does not touch the queue, so a node constructed with an empty
    queue never holds more than one pending waypoint. *)
Lemma init_keeps_queue (_test : bool) (call : option planeIDGetter.Response)
    (m : Mover) :
  ca_wp (after (init _test call m)) = ca_wp m.
Proof.
  destruct _test; [rewrite init_test; reflexivity|].
  destruct call as [response|];
    [rewrite init_success|rewrite init_failure]; reflexivity.
Qed.

Lemma single_slot_from_start (_test : bool) (call : option planeIDGetter.Response)
    (acts : list activity) (m : Mover) :
  ca_wp m = [] ->
  (length (ca_wp (after (run acts (after (init _test call m))))) <= 1)%nat.
Proof.
  intros Hempty. apply single_slot_run.
  rewrite init_keeps_queue, Hempty. cbn. lia.
Qed.

(** ** The publish loop, claim by claim *)

(** C1.  In [ST_RED] (Halted) an iteration of the publish loop only takes
    the snapshot of the mode: it publishes nothing, does not sleep, acquires
    neither [goal_wp_lock] nor [ca_wp_lock] and leaves the object as it was,
    whatever the goal waypoint and the queue hold.  Hence any number of
    iterations publishes nothing, and so does any execution in which the
    callbacks run in between, as long as no mode request for this plane
    arrives. *)
Theorem halted_publishes_nothing (m : Mover) (Hred : current_state m = ST_RED) :
  move_iteration m = (tt, m, [Lock state_change_lock; Unlock state_change_lock])
  /\ (forall ticks : nat,
        after (move ticks m) = m
        /\ published (effects_of (move ticks m)) = []
        /\ acquisitions goal_wp_lock (effects_of (move ticks m)) = 0%nat
        /\ acquisitions ca_wp_lock (effects_of (move ticks m)) = 0%nat)
  /\ (forall acts : list activity,
        forallb (fun a => negb (mode_request (planeID m) a)) acts = true ->
        published (effects_of (run acts m)) = []).
Proof.
  split; [exact (move_iteration_red m Hred)|]. split.
  - induction ticks as [|n IH]; [repeat split; reflexivity|].
    destruct IH as (Hm & Hp & Hg & Hc).
    rewrite move_succ, (move_iteration_red m Hred).
    cbn [after effects_of fst snd app published acquisitions] in *.
    rewrite Hm, Hp, Hg, Hc. repeat split; reflexivity.
  - intros acts Hq. exact (run_red_silent acts m Hred Hq).
Qed.

(** C2.  In [ST_GREEN_CA_ON] (AvoidGuided) an iteration of the publish loop
    acquires [ca_wp_lock] exactly once and [goal_wp_lock] never.  With an
    empty queue it publishes nothing and changes nothing; otherwise it
    publishes the front entry and removes it.  So with a queue of at most one
    entry a second iteration publishes nothing, and after a telemetry
    callback with a valid candidate two iterations publish that candidate
    exactly once.  [caCommandPublish] itself, in whatever state it is called,
    publishes the front entry or nothing and never reads the goal
    waypoint. *)
Theorem avoid_guided_pops_once (m : Mover) (Hon : current_state m = ST_GREEN_CA_ON) :
  let r := move_iteration m in
  acquisitions ca_wp_lock (effects_of r) = 1%nat
  /\ acquisitions goal_wp_lock (effects_of r) = 0%nat
  /\ match ca_wp m with
     | [] =>
         r = (tt, m, [Lock state_change_lock; Unlock state_change_lock;
                      Sleep 0.25%float; Lock ca_wp_lock; Unlock ca_wp_lock])
     | com :: rest =>
         r = (tt, set_ca_wp rest m,
              [Lock state_change_lock; Unlock state_change_lock;
               Sleep 0.25%float; Lock ca_wp_lock; Unlock ca_wp_lock;
               Publish com])
     end
  /\ published (effects_of r) = firstn 1 (ca_wp m)
  /\ ((length (ca_wp m) <= 1)%nat ->
      published (effects_of (move_iteration (after r))) = [])
  /\ (forall telem : Telemetry,
        let com := value_of (candidate telem m) in
        is_invalid com = false ->
        published (effects_of (run [Telem telem; Tick; Tick] m)) = [com])
  /\ (forall m' : Mover,
        published (effects_of (caCommandPublish m')) = firstn 1 (ca_wp m')
        /\ ca_wp (after (caCommandPublish m')) = tl (ca_wp m')
        /\ acquisitions goal_wp_lock (effects_of (caCommandPublish m')) = 0%nat).
Proof.
  cbv zeta.
  assert (Hwake : forall m' : Mover,
             published (effects_of (caCommandPublish m')) = firstn 1 (ca_wp m')
             /\ ca_wp (after (caCommandPublish m')) = tl (ca_wp m')
             /\ acquisitions goal_wp_lock (effects_of (caCommandPublish m')) = 0%nat).
  { intros m'. rewrite caCommandPublish_unfold.
    destruct (ca_wp m') eqn:Hq'; cbn; rewrite ?Hq'; auto. }
  assert (Hsecond : (length (ca_wp m) <= 1)%nat ->
                    published (effects_of (move_iteration (after (move_iteration m)))) = []).
  { intros Hlen. destruct (guided_tick_drains m Hon Hlen) as (Hs1 & Hq1 & _).
    rewrite (move_iteration_ca_on_empty _ Hs1 Hq1). reflexivity. }
  assert (Hfresh : forall telem : Telemetry,
             is_invalid (value_of (candidate telem m)) = false ->
             published (effects_of (run [Telem telem; Tick; Tick] m))
             = [value_of (candidate telem m)]).
  { intros telem Hvalid.
    destruct (telem_frame telem m) as (_ & Hs & _ & Hp).
    pose proof (telem_queue telem m) as Hq. rewrite Hvalid in Hq.
    rewrite Hon in Hs.
    destruct (guided_tick_drains _ Hs) as (Hs1 & Hq1 & Hp1);
      [rewrite Hq; cbn; lia|].
    rewrite !run_cons. cbn [effects_of snd after fst dispatch run ret].
    rewrite !published_app, Hp, Hp1, Hq.
    rewrite (move_iteration_ca_on_empty _ Hs1 Hq1). reflexivity. }
  destruct (ca_wp m) as [|c rest] eqn:Hq.
  - rewrite (move_iteration_ca_on_empty m Hon Hq) in *.
    repeat split; solve [reflexivity | assumption | apply Hwake].
  - rewrite (move_iteration_ca_on_pending m c rest Hon Hq) in *.
    repeat split; solve [reflexivity | assumption | apply Hwake].
Qed.

(** C3.  In [ST_GREEN_CA_OFF] (DirectGoal) an iteration of the publish loop
    sleeps, reads the goal waypoint under its lock and publishes exactly it,
    changing nothing; so repeated iterations publish it again each time.
    Interleaved with telemetry and with commands that are neither a mode
    request nor a goal update for this plane, every iteration still publishes
    the same waypoint; no activity other than a goal update changes the goal
    waypoint, and after a goal update the next iteration publishes the new
    one.  [goalCommandPublish] itself, in whatever state it is called,
    publishes the goal waypoint of that state. *)
Theorem direct_goal_keepalive (m : Mover) (Hoff : current_state m = ST_GREEN_CA_OFF) :
  move_iteration m
  = (tt, m, [Lock state_change_lock; Unlock state_change_lock;
             Sleep 0.25%float;
             Lock goal_wp_lock; Unlock goal_wp_lock; Publish (goal_wp m)])
  /\ (forall ticks : nat,
        after (move ticks m) = m
        /\ published (effects_of (move ticks m)) = repeat (goal_wp m) ticks)
  /\ (forall acts : list activity,
        forallb (fun a => negb (mode_request (planeID m) a)
                          && negb (goal_update (planeID m) a)) acts = true ->
        published (effects_of (run acts m))
        = repeat (goal_wp m) (length (filter is_tick acts)))
  /\ (forall a : activity,
        goal_update (planeID m) a = false ->
        goal_wp (after (dispatch a m)) = goal_wp m)
  /\ (forall com : Command.t,
        goal_update (planeID m) (Gcs com) = true ->
        published (effects_of (run [Gcs com; Tick] m)) = [com])
  /\ (forall m' : Mover,
        goalCommandPublish m'
        = (tt, m', [Lock goal_wp_lock; Unlock goal_wp_lock; Publish (goal_wp m')])).
Proof.
  split; [exact (move_iteration_ca_off m Hoff)|].
  split; [|split; [|split; [|split; [|exact goalCommandPublish_unfold]]]].
  - induction ticks as [|n IH]; [split; reflexivity|].
    destruct IH as (Hm & Hp).
    rewrite move_succ, (move_iteration_ca_off m Hoff).
    cbn [after effects_of fst snd app published repeat] in *.
    rewrite Hm, Hp. split; reflexivity.
  - intros acts Hq. exact (run_ca_off_keepalive acts m Hoff Hq).
  - intros a Ha. apply dispatch_frame, Ha.
  - intros com Hup. cbn [goal_update] in Hup.
    apply andb_true_iff in Hup. destruct Hup as [Hid Hlat].
    apply negb_true_iff in Hlat.
    rewrite !run_cons. cbn [effects_of snd after fst dispatch run ret].
    revert Hoff. exec. rewrite Hid, Hlat. cbn. intros ->. reflexivity.
Qed.

(** ** The command callback *)

(** C4.  A command for this plane whose latitude is
    [EMERGENCY_PROTOCOL_LAT] sets the mode by the integer part of its
    longitude: [META_START_CA_ON_LON] gives [ST_GREEN_CA_ON],
    [META_STOP_LON] gives [ST_RED], [META_START_CA_OFF_LON] gives
    [ST_GREEN_CA_OFF], from any mode, under [state_change_lock].  Whatever
    the code, the goal waypoint, the queue and the collision-avoidance
    object stay as they were and that object is not called. *)
Theorem meta_command_sets_mode (m : Mover) (com : Command.t)
    (Hid : planeID m = Command.planeID com)
    (Hmeta : (Command.latitude com =? EMERGENCY_PROTOCOL_LAT)%float = true)
    (Hlabels : labels_distinct) :
  let code := double_to_int (Command.longitude com) in
  let r := gcs_command_callback com m in
  (code = META_START_CA_ON_LON ->
   r = (tt, set_current_state ST_GREEN_CA_ON m,
        [Lock state_change_lock; Unlock state_change_lock]))
  /\ (code = META_STOP_LON ->
      r = (tt, set_current_state ST_RED m,
           [Lock state_change_lock; Unlock state_change_lock]))
  /\ (code = META_START_CA_OFF_LON ->
      r = (tt, set_current_state ST_GREEN_CA_OFF m,
           [Lock state_change_lock; Unlock state_change_lock]))
  /\ goal_wp (after r) = goal_wp m
  /\ ca_wp (after r) = ca_wp m
  /\ ca (after r) = ca m
  /\ calls_ca (effects_of r) = false
  /\ acquisitions goal_wp_lock (effects_of r) = 0%nat.
Proof.
  cbv zeta. destruct Hlabels as (Hon_stop & Hon_off & Hstop_off).
  apply Z.eqb_eq in Hid. exec. rewrite Hid, Hmeta.
  destruct (Z.eqb_spec (double_to_int (Command.longitude com)) META_START_CA_ON_LON) as [Eon|Non];
    [|destruct (Z.eqb_spec (double_to_int (Command.longitude com)) META_STOP_LON) as [Estop|Nstop];
      [|destruct (Z.eqb_spec (double_to_int (Command.longitude com)) META_START_CA_OFF_LON) as [Eoff|Noff]]];
    cbn; repeat split; intros; solve [reflexivity | congruence].
Qed.

(** C7.  A command whose [planeID] is not this plane's is dropped: the
    callback returns with the object exactly as it was (mode, goal waypoint,
    queue, collision-avoidance object) and with no effect at all, in
    particular no call to [ca.setGoalWaypoint]. *)
Theorem foreign_command_ignored (m : Mover) (com : Command.t)
    (Hforeign : planeID m <> Command.planeID com) :
  gcs_command_callback com m = (tt, m, []).
Proof.
  apply Z.eqb_neq in Hforeign. exec. rewrite Hforeign. reflexivity.
Qed.

(** C10.  A command for this plane whose latitude is
    [EMERGENCY_PROTOCOL_LAT] and whose longitude converts to none of the
    three labels is dropped: the callback returns with the object exactly as
    it was and with no effect at all. *)
Theorem unknown_meta_code_dropped (m : Mover) (com : Command.t)
    (Hid : planeID m = Command.planeID com)
    (Hmeta : (Command.latitude com =? EMERGENCY_PROTOCOL_LAT)%float = true)
    (Hon : double_to_int (Command.longitude com) <> META_START_CA_ON_LON)
    (Hstop : double_to_int (Command.longitude com) <> META_STOP_LON)
    (Hoff : double_to_int (Command.longitude com) <> META_START_CA_OFF_LON) :
  gcs_command_callback com m = (tt, m, []).
Proof.
  apply Z.eqb_eq in Hid.
  apply Z.eqb_neq in Hon. apply Z.eqb_neq in Hstop. apply Z.eqb_neq in Hoff.
  exec. rewrite Hid, Hmeta, Hon, Hstop, Hoff. reflexivity.
Qed.

(** ** The queue *)

(** C6.  Installing a waypoint replaces the queue: whatever it held, after
    [pushAvoidance a] it holds exactly [a]; after [pushAvoidance a] and then
    [pushAvoidance b] it holds exactly [b], which is what the next
    [popAvoidance] returns, leaving the queue empty. *)
Theorem push_replaces (m : Mover) (a b : Command.t) :
  ca_wp (after (pushAvoidance a m)) = [a]
  /\ length (ca_wp (after (pushAvoidance a m))) = 1%nat
  /\ ca_wp (after (pushAvoidance b (after (pushAvoidance a m)))) = [b]
  /\ value_of (popAvoidance (after (pushAvoidance b (after (pushAvoidance a m)))))
     = Some b
  /\ ca_wp (after (popAvoidance (after (pushAvoidance b (after (pushAvoidance a m))))))
     = [].
Proof.
  rewrite !pushAvoidance_unfold. cbn [after fst snd].
  rewrite popAvoidance_unfold. repeat split; reflexivity.
Qed.

(** C8.  The telemetry callback discards its candidate exactly when the
    candidate's latitude, longitude and altitude all compare equal to
    [INVALID_GPS_COOR]: then the queue is left as it was and [ca_wp_lock] is
    not acquired.  Any other candidate replaces the queue, under one
    acquisition of [ca_wp_lock].  The candidate is the goal waypoint when
    testing and the answer of [ca.avoid] otherwise. *)
Theorem invalid_candidate_discarded (telem : Telemetry) (m : Mover) :
  let com := value_of (candidate telem m) in
  let r := all_telem_callback telem m in
  com = (if is_testing m then goal_wp m else fst (ca_avoid telem (ca m)))
  /\ (is_invalid com = true <->
      (Command.latitude com =? INVALID_GPS_COOR)%float = true
      /\ (Command.longitude com =? INVALID_GPS_COOR)%float = true
      /\ (Command.altitude com =? INVALID_GPS_COOR)%float = true)
  /\ r = (if is_invalid com
          then (tt, after (candidate telem m), effects_of (candidate telem m))
          else (tt, set_ca_wp [com] (after (candidate telem m)),
                effects_of (candidate telem m)
                ++ [Lock ca_wp_lock; Unlock ca_wp_lock]))
  /\ ca_wp (after r) = (if is_invalid com then ca_wp m else [com])
  /\ acquisitions ca_wp_lock (effects_of r)
     = (if is_invalid com then 0%nat else 1%nat).
Proof.
  cbv zeta. destruct (candidate_frame telem m) as (Hc & Hq & Hl).
  split; [exact Hc|]. split; [|split; [|split]].
  - unfold is_invalid. rewrite !andb_true_iff. tauto.
  - apply telem_unfold.
  - apply telem_queue.
  - rewrite telem_unfold. cbv zeta.
    destruct (is_invalid (value_of (candidate telem m)));
      cbn [effects_of snd]; [exact Hl|].
    rewrite acquisitions_app, Hl. reflexivity.
Qed.

(** What shortens the queue.  An iteration of the publish loop leaves the
    queue alone unless the mode is [ST_GREEN_CA_ON], and then it drops the
    front entry. *)
Lemma tick_queue (m : Mover) :
  ca_wp (after (move_iteration m))
  = match current_state m with
    | ST_GREEN_CA_ON => tl (ca_wp m)
    | _ => ca_wp m
    end.
Proof.
  destruct (current_state m) eqn:Hs.
  - rewrite (move_iteration_red m Hs). reflexivity.
  - rewrite (move_iteration_ca_off m Hs). reflexivity.
  - destruct (ca_wp m) as [|c rest] eqn:Hq.
    + rewrite (move_iteration_ca_on_empty m Hs Hq). exact Hq.
    + rewrite (move_iteration_ca_on_pending m c rest Hs Hq). reflexivity.
Qed.

(** An activity that empties a queue that was not empty is an iteration of
    the publish loop in [ST_GREEN_CA_ON]. *)
Lemma only_guided_tick_empties (a : activity) (m : Mover) :
  ca_wp m <> [] ->
  ca_wp (after (dispatch a m)) = [] ->
  a = Tick /\ current_state m = ST_GREEN_CA_ON.
Proof.
  intros Hpending Hempty. destruct a as [telem|com|]; cbn [dispatch] in Hempty.
  - rewrite telem_queue in Hempty.
    destruct (is_invalid (value_of (candidate telem m)));
      [contradiction|discriminate].
  - destruct (gcs_frame com m) as (_ & Hq & _). rewrite Hq in Hempty.
    contradiction.
  - split; [reflexivity|]. rewrite tick_queue in Hempty.
    destruct (current_state m); [contradiction|contradiction|reflexivity].
Qed.

(** However many callbacks are served, a queue that was not empty is not
    empty afterwards. *)
Lemma callbacks_keep_pending (acts : list activity) :
  forall m : Mover,
    forallb (fun a => negb (is_tick a)) acts = true ->
    ca_wp m <> [] ->
    ca_wp (after (run acts m)) <> [].
Proof.
  induction acts as [|a acts IH]; intros m Hcalls Hpending; [exact Hpending|].
  cbn [forallb] in Hcalls. apply andb_true_iff in Hcalls.
  destruct Hcalls as [Ha Hcalls]. apply negb_true_iff in Ha.
  rewrite run_cons. cbn [after fst snd]. apply IH; [exact Hcalls|].
  intros Hempty.
  destruct (only_guided_tick_empties a m Hpending Hempty) as [-> _].
  discriminate Ha.
Qed.

(** C9, as amended.  The telemetry callback never empties the queue: it
    either leaves the queue as it was (invalid candidate) or replaces the
    whole queue by the one new candidate, so a queue that was not empty is
    not empty afterwards and a queue of at most one entry does not get
    shorter.  Nothing else on the intake side touches the queue: the command
    callback leaves it as it was, and so does [init]; however many callbacks
    are served, a queue that was not empty stays so.  On the publish side
    [goalCommandPublish] and an iteration of the loop in [ST_RED] or
    [ST_GREEN_CA_OFF] leave the queue as it was.  The only place that takes
    an entry out without putting one in is [popAvoidance], reached through
    [caCommandPublish] by an iteration in [ST_GREEN_CA_ON]: it drops the
    front entry, and an activity that empties a queue that was not empty is
    such an iteration. *)
Theorem telemetry_replaces_or_keeps (telem : Telemetry) (m : Mover) :
  let com := value_of (candidate telem m) in
  let m' := after (all_telem_callback telem m) in
  ca_wp m' = (if is_invalid com then ca_wp m else [com])
  /\ (ca_wp m <> [] -> ca_wp m' <> [])
  /\ ((length (ca_wp m) <= 1)%nat -> (length (ca_wp m) <= length (ca_wp m'))%nat)
  /\ (forall gcs : Command.t, ca_wp (after (gcs_command_callback gcs m)) = ca_wp m)
  /\ ca_wp (after (popAvoidance m)) = tl (ca_wp m)
  /\ (forall (_test : bool) (call : option planeIDGetter.Response),
        ca_wp (after (init _test call m)) = ca_wp m)
  /\ ca_wp (after (goalCommandPublish m)) = ca_wp m
  /\ ca_wp (after (caCommandPublish m)) = tl (ca_wp m)
  /\ ca_wp (after (move_iteration m))
     = match current_state m with
       | ST_GREEN_CA_ON => tl (ca_wp m)
       | _ => ca_wp m
       end
  /\ (forall a : activity,
        ca_wp m <> [] ->
        ca_wp (after (dispatch a m)) = [] ->
        a = Tick /\ current_state m = ST_GREEN_CA_ON)
  /\ (forall acts : list activity,
        forallb (fun a => negb (is_tick a)) acts = true ->
        ca_wp m <> [] ->
        ca_wp (after (run acts m)) <> []).
Proof.
  cbv zeta.
  assert (Hpublish : ca_wp (after (caCommandPublish m)) = tl (ca_wp m)).
  { rewrite caCommandPublish_unfold.
    destruct (ca_wp m) eqn:Hq; [exact Hq|reflexivity]. }
  assert (Hrest :
    (forall gcs : Command.t, ca_wp (after (gcs_command_callback gcs m)) = ca_wp m)
    /\ ca_wp (after (popAvoidance m)) = tl (ca_wp m)
    /\ (forall (_test : bool) (call : option planeIDGetter.Response),
          ca_wp (after (init _test call m)) = ca_wp m)
    /\ ca_wp (after (goalCommandPublish m)) = ca_wp m
    /\ ca_wp (after (caCommandPublish m)) = tl (ca_wp m)
    /\ ca_wp (after (move_iteration m))
       = match current_state m with
         | ST_GREEN_CA_ON => tl (ca_wp m)
         | _ => ca_wp m
         end
    /\ (forall a : activity,
          ca_wp m <> [] ->
          ca_wp (after (dispatch a m)) = [] ->
          a = Tick /\ current_state m = ST_GREEN_CA_ON)
    /\ (forall acts : list activity,
          forallb (fun a => negb (is_tick a)) acts = true ->
          ca_wp m <> [] ->
          ca_wp (after (run acts m)) <> [])).
  { split; [intros gcs; apply gcs_frame|].
    split; [apply popAvoidance_queue|].
    split; [intros _test call; apply init_keeps_queue|].
    split; [rewrite goalCommandPublish_unfold; reflexivity|].
    split; [exact Hpublish|].
    split; [apply tick_queue|].
    split; [intros a; apply only_guided_tick_empties|].
    intros acts. apply callbacks_keep_pending. }
  rewrite telem_queue.
  destruct (is_invalid (value_of (candidate telem m))).
  - split; [reflexivity|]. split; [auto|]. split; [auto|exact Hrest].
  - split; [reflexivity|]. split; [discriminate|].
    split; [cbn; auto|exact Hrest].
Qed.

(** * Beyond the claims *)

(** ** Sequencing, continued *)

Lemma lock_discipline_app (es fs : list effect) :
  forall held : option mutex,
    lock_discipline held (es ++ fs)
    = match lock_discipline held es with
      | Some held' => lock_discipline held' fs
      | None => None
      end.
Proof.
  induction es as [|e es IH]; intros held; [reflexivity|].
  destruct e, held as [h|]; cbn [app lock_discipline]; try reflexivity;
    try apply IH.
  destruct (mutex_eqb l h); [apply IH|reflexivity].
Qed.

Lemma pacing_app (es fs : list effect) :
  forall slept : bool,
    pacing slept (es ++ fs)
    = match pacing slept es with
      | Some slept' => pacing slept' fs
      | None => None
      end.
Proof.
  induction es as [|e es IH]; intros slept; [reflexivity|].
  destruct e; cbn [app pacing]; try apply IH.
  destruct slept; [apply IH|reflexivity].
Qed.

(** The effects of each activity, case by case. *)
Lemma dispatch_effects (a : activity) (m : Mover) :
  match a with
  | Telem telem =>
      let c := candidate telem m in
      effects_of c
      = (if is_testing m then [Lock goal_wp_lock; Unlock goal_wp_lock]
         else [CaAvoid telem])
      /\ effects_of (dispatch a m)
         = effects_of c
           ++ (if is_invalid (value_of c) then []
               else [Lock ca_wp_lock; Unlock ca_wp_lock])
  | Gcs com =>
      effects_of (dispatch a m)
      = if mode_request (planeID m) a then
          match mode_of_code (double_to_int (Command.longitude com)) with
          | Some _ => [Lock state_change_lock; Unlock state_change_lock]
          | None => []
          end
        else if goal_update (planeID m) a then
          [Lock goal_wp_lock; Unlock goal_wp_lock; CaSetGoalWaypoint com]
        else []
  | Tick =>
      effects_of (dispatch a m)
      = [Lock state_change_lock; Unlock state_change_lock]
        ++ match current_state m with
           | ST_RED => []
           | ST_GREEN_CA_OFF =>
               [Sleep 0.25%float; Lock goal_wp_lock; Unlock goal_wp_lock;
                Publish (goal_wp m)]
           | ST_GREEN_CA_ON =>
               [Sleep 0.25%float; Lock ca_wp_lock; Unlock ca_wp_lock]
               ++ map Publish (firstn 1 (ca_wp m))
           end
  end.
Proof.
  destruct a as [telem|com|]; cbn [dispatch].
  - cbv zeta. rewrite telem_unfold. cbv zeta. split.
    + exec. destruct (is_testing m); reflexivity.
    + destruct (is_invalid (value_of (candidate telem m)));
        cbn [effects_of snd]; [rewrite app_nil_r|]; reflexivity.
  - exec. cbn [mode_request goal_update]. unfold mode_of_code.
    destruct (planeID m =? Command.planeID com); [|reflexivity].
    destruct (Command.latitude com =? EMERGENCY_PROTOCOL_LAT)%float;
      cbn [andb negb]; [|reflexivity].
    destruct (double_to_int (Command.longitude com) =? META_START_CA_ON_LON);
      [|destruct (double_to_int (Command.longitude com) =? META_STOP_LON);
        [|destruct (double_to_int (Command.longitude com) =? META_START_CA_OFF_LON)]];
      reflexivity.
  - destruct (current_state m) eqn:Hs.
    + rewrite (move_iteration_red m Hs). reflexivity.
    + rewrite (move_iteration_ca_off m Hs). reflexivity.
    + destruct (ca_wp m) as [|c rest] eqn:Hq.
      * rewrite (move_iteration_ca_on_empty m Hs Hq). reflexivity.
      * rewrite (move_iteration_ca_on_pending m c rest Hs Hq). reflexivity.
Qed.

(** The object after each activity, case by case. *)
Lemma dispatch_after (a : activity) (m : Mover) :
  after (dispatch a m)
  = match a with
    | Telem telem =>
        let m1 := if is_testing m then m
                  else set_ca (snd (ca_avoid telem (ca m))) m in
        if is_invalid (value_of (candidate telem m)) then m1
        else set_ca_wp [value_of (candidate telem m)] m1
    | Gcs com =>
        if mode_request (planeID m) a then
          match mode_of_code (double_to_int (Command.longitude com)) with
          | Some s => set_current_state s m
          | None => m
          end
        else if goal_update (planeID m) a then
          set_ca (ca_setGoalWaypoint com (ca m)) (set_goal_wp com m)
        else m
    | Tick =>
        match current_state m, ca_wp m with
        | ST_GREEN_CA_ON, _ :: rest => set_ca_wp rest m
        | _, _ => m
        end
    end.
Proof.
  destruct a as [telem|com|]; cbn [dispatch].
  - rewrite telem_unfold. cbv zeta.
    assert (Hc : after (candidate telem m)
                 = if is_testing m then m
                   else set_ca (snd (ca_avoid telem (ca m))) m)
      by (exec; destruct (is_testing m); reflexivity).
    destruct (is_invalid (value_of (candidate telem m)));
      cbn [after fst snd]; fold (after (candidate telem m));
      rewrite Hc; reflexivity.
  - exec. cbn [mode_request goal_update]. unfold mode_of_code.
    destruct (planeID m =? Command.planeID com); [|reflexivity].
    destruct (Command.latitude com =? EMERGENCY_PROTOCOL_LAT)%float;
      cbn [andb negb]; [|reflexivity].
    destruct (double_to_int (Command.longitude com) =? META_START_CA_ON_LON);
      [|destruct (double_to_int (Command.longitude com) =? META_STOP_LON);
        [|destruct (double_to_int (Command.longitude com) =? META_START_CA_OFF_LON)]];
      reflexivity.
  - destruct (current_state m) eqn:Hs.
    + rewrite (move_iteration_red m Hs). destruct (ca_wp m); reflexivity.
    + rewrite (move_iteration_ca_off m Hs). destruct (ca_wp m); reflexivity.
    + destruct (ca_wp m) as [|c rest] eqn:Hq.
      * rewrite (move_iteration_ca_on_empty m Hs Hq). reflexivity.
      * rewrite (move_iteration_ca_on_pending m c rest Hs Hq). reflexivity.
Qed.

(** No activity changes who the node is. *)
Lemma dispatch_identity (a : activity) (m : Mover) :
  let m' := after (dispatch a m) in
  planeID m' = planeID m
  /\ is_testing m' = is_testing m
  /\ initialLat m' = initialLat m
  /\ initialLong m' = initialLong m
  /\ initialAlt m' = initialAlt m.
Proof.
  cbv zeta. rewrite dispatch_after. destruct a as [telem|com|].
  - cbv zeta. destruct (is_invalid _); destruct (is_testing m) eqn:Ht;
      repeat split; solve [reflexivity | exact Ht].
  - destruct (mode_request _ _);
      [destruct (mode_of_code _)|destruct (goal_update _ _)];
      repeat split; reflexivity.
  - destruct (current_state m), (ca_wp m); repeat split; reflexivity.
Qed.

Lemma run_nil (m : Mover) : run [] m = (tt, m, []).
Proof. reflexivity. Qed.

(** ** Mutexes and pace *)

Lemma dispatch_discipline (a : activity) (m : Mover) :
  lock_discipline None (effects_of (dispatch a m)) = Some None.
Proof.
  pose proof (dispatch_effects a m) as He. destruct a as [telem|com|].
  - cbv zeta in He. destruct He as [Hc ->]. rewrite Hc.
    destruct (is_testing m), (is_invalid _); reflexivity.
  - rewrite He.
    destruct (mode_request _ _);
      [destruct (mode_of_code _)|destruct (goal_update _ _)]; reflexivity.
  - rewrite He. destruct (current_state m); try reflexivity.
    destruct (ca_wp m); reflexivity.
Qed.

Lemma run_discipline (acts : list activity) :
  forall m : Mover, lock_discipline None (effects_of (run acts m)) = Some None.
Proof.
  induction acts as [|a acts IH]; intros m; [reflexivity|].
  rewrite run_cons. cbn [effects_of snd].
  rewrite lock_discipline_app, dispatch_discipline. apply IH.
Qed.

(** X1.  No member function ever holds two mutexes, releases a mutex it
    does not hold, or returns holding one; and none sleeps, publishes or
    calls into the collision-avoidance object while holding a mutex.  This
    holds for each callback and each iteration of the publish loop from any
    state, for [init], and for a whole run of [main]. *)
Theorem mutexes_never_nested :
  (forall (a : activity) (m : Mover),
      lock_discipline None (effects_of (dispatch a m)) = Some None)
  /\ (forall (_test : bool) (call : option planeIDGetter.Response) (m : Mover),
        lock_discipline None (effects_of (init _test call m)) = Some None)
  /\ (forall (is_test : bool) (call : option planeIDGetter.Response)
             (acts : list activity) (m : Mover),
        lock_discipline None (effects_of (main is_test call acts m)) = Some None).
Proof.
  assert (Hinit : forall _test call m,
             lock_discipline None (effects_of (init _test call m)) = Some None).
  { intros [|] call m; [rewrite init_test; reflexivity|].
    destruct call; [rewrite init_success|rewrite init_failure]; reflexivity. }
  split; [exact dispatch_discipline|]. split; [exact Hinit|].
  intros is_test call acts m. unfold main. rewrite bind_unfold.
  cbn [effects_of snd]. fold (effects_of (init is_test call m)).
  rewrite lock_discipline_app, Hinit.
  destruct (value_of (init is_test call m)); [apply run_discipline|reflexivity].
Qed.

Lemma dispatch_pacing (a : activity) (m : Mover) (slept : bool) :
  exists slept' : bool,
    pacing slept (effects_of (dispatch a m)) = Some slept'.
Proof.
  pose proof (dispatch_effects a m) as He. destruct a as [telem|com|].
  - cbv zeta in He. destruct He as [Hc ->]. rewrite Hc.
    destruct (is_testing m), (is_invalid _); eexists; reflexivity.
  - rewrite He.
    destruct (mode_request _ _);
      [destruct (mode_of_code _)|destruct (goal_update _ _)];
      eexists; reflexivity.
  - rewrite He. destruct (current_state m); [eexists; reflexivity| |].
    + destruct slept; eexists; reflexivity.
    + destruct (ca_wp m), slept; eexists; reflexivity.
Qed.

Lemma dispatch_published_length (a : activity) (m : Mover) :
  (length (published (effects_of (dispatch a m)))
   <= if is_tick a then 1 else 0)%nat.
Proof.
  rewrite dispatch_published. destruct a as [telem|com|]; cbn [is_tick length];
    [lia|lia|].
  pose proof (dispatch_effects Tick m) as He. cbn [dispatch] in He. rewrite He.
  destruct (current_state m); cbn; try lia.
  destruct (ca_wp m); cbn; lia.
Qed.

(** X2.  In every execution the node sleeps a quarter of a second before
    each message it publishes, whatever had been done before, and it
    publishes at most one message per iteration of the loop. *)
Theorem publishing_is_paced (acts : list activity) (m : Mover) (slept : bool) :
  (exists slept' : bool,
      pacing slept (effects_of (run acts m)) = Some slept')
  /\ (length (published (effects_of (run acts m)))
      <= length (filter is_tick acts))%nat.
Proof.
  revert m slept. induction acts as [|a acts IH]; intros m slept.
  - split; [exists slept; reflexivity|cbn; lia].
  - rewrite run_cons. cbn [effects_of snd]. split.
    + rewrite pacing_app.
      destruct (dispatch_pacing a m slept) as [s1 ->].
      apply (IH (after (dispatch a m)) s1).
    + rewrite published_app, length_app.
      pose proof (dispatch_published_length a m) as Ha.
      destruct (IH (after (dispatch a m)) slept) as [_ Hrest].
      cbn [filter]. destruct (is_tick a); cbn [length]; lia.
Qed.

(** ** Goal and mode over an execution *)

Lemma last_cons {A : Type} (a d : A) (l : list A) :
  last (a :: l) d = last l a.
Proof.
  revert a d. induction l as [|b l IH]; intros a d; [reflexivity|].
  change (last (a :: b :: l) d) with (last (b :: l) d).
  rewrite (IH b d), (IH b a). reflexivity.
Qed.

Lemma goals_given_app (es fs : list effect) :
  goals_given (es ++ fs) = goals_given es ++ goals_given fs.
Proof.
  induction es as [|e es IH]; [reflexivity|].
  destruct e; cbn [app goals_given]; rewrite IH; reflexivity.
Qed.

Lemma avoid_calls_app (es fs : list effect) :
  avoid_calls (es ++ fs) = avoid_calls es ++ avoid_calls fs.
Proof.
  induction es as [|e es IH]; [reflexivity|].
  destruct e; cbn [app avoid_calls]; rewrite IH; reflexivity.
Qed.

(** What an activity does to the goal waypoint and what it gives to
    [ca.setGoalWaypoint]. *)
Lemma dispatch_goal (a : activity) (m : Mover) :
  goal_wp (after (dispatch a m))
  = last (goal_commands (planeID m) [a]) (goal_wp m)
  /\ goals_given (effects_of (dispatch a m)) = goal_commands (planeID m) [a].
Proof.
  pose proof (dispatch_effects a m) as He. rewrite dispatch_after.
  destruct a as [telem|com|].
  - cbv zeta in He. destruct He as [Hc ->]. rewrite Hc. cbv zeta.
    destruct (is_invalid _), (is_testing m); split; reflexivity.
  - rewrite He. cbn [goal_commands mode_request goal_update].
    destruct (planeID m =? Command.planeID com); [|split; reflexivity].
    destruct (Command.latitude com =? EMERGENCY_PROTOCOL_LAT)%float;
      cbn [andb negb]; [|split; reflexivity].
    destruct (mode_of_code _); split; reflexivity.
  - rewrite He. destruct (current_state m); try (split; reflexivity).
    destruct (ca_wp m); split; reflexivity.
Qed.

(** X3.  The goal waypoint is the last goal update: after any execution it
    is the last command delivered for this plane whose latitude is not
    [EMERGENCY_PROTOCOL_LAT], or the goal waypoint of the start if there was
    none, in whatever mode the node was; and [ca.setGoalWaypoint] has been
    called with exactly those commands, in the order of their delivery, so
    the collision-avoidance object was last given the same goal. *)
Theorem goal_is_last_update (acts : list activity) (m : Mover) :
  goal_wp (after (run acts m))
  = last (goal_commands (planeID m) acts) (goal_wp m)
  /\ goals_given (effects_of (run acts m)) = goal_commands (planeID m) acts.
Proof.
  revert m. induction acts as [|a acts IH]; intros m; [split; reflexivity|].
  rewrite run_cons. cbn [after effects_of fst snd].
  destruct (IH (after (dispatch a m))) as [Hgoal Hgiven].
  destruct (dispatch_goal a m) as [Hg1 Hc1].
  destruct (dispatch_identity a m) as (Hid & _).
  rewrite goals_given_app, Hgiven, Hgoal, Hg1, Hc1, Hid.
  destruct a as [telem|com|]; cbn [goal_commands]; try (split; reflexivity).
  destruct (goal_update (planeID m) (Gcs com)); [|split; reflexivity].
  rewrite (last_cons com (goal_wp m) (goal_commands (planeID m) acts)).
  split; reflexivity.
Qed.

Lemma dispatch_mode (a : activity) (m : Mover) :
  current_state (after (dispatch a m))
  = last (modes_requested (planeID m) [a]) (current_state m).
Proof.
  rewrite dispatch_after. destruct a as [telem|com|].
  - cbv zeta. destruct (is_invalid _), (is_testing m); reflexivity.
  - cbn [modes_requested].
    destruct (mode_request (planeID m) (Gcs com));
      [destruct (mode_of_code _)|destruct (goal_update _ _)]; reflexivity.
  - cbn [modes_requested last].
    destruct (current_state m) eqn:Hs, (ca_wp m); solve [reflexivity | exact Hs].
Qed.

(** X4.  The mode is the last mode asked for: after any execution it is the
    mode of the last command delivered for this plane with latitude
    [EMERGENCY_PROTOCOL_LAT] and a longitude that converts to one of the
    three labels, or the mode of the start if there was none.  Telemetry,
    iterations of the publish loop, goal updates, commands for other planes
    and meta commands with another code have no part in it. *)
Theorem mode_is_last_request (acts : list activity) (m : Mover) :
  current_state (after (run acts m))
  = last (modes_requested (planeID m) acts) (current_state m).
Proof.
  revert m. induction acts as [|a acts IH]; intros m; [reflexivity|].
  rewrite run_cons. cbn [after fst snd].
  destruct (dispatch_identity a m) as (Hid & _).
  rewrite IH, Hid, dispatch_mode.
  destruct a as [telem|com|]; cbn [modes_requested last]; try reflexivity.
  destruct (mode_request (planeID m) (Gcs com)); [|reflexivity].
  destruct (mode_of_code _) as [s|]; [|reflexivity].
  rewrite (last_cons s (current_state m) (modes_requested (planeID m) acts)).
  reflexivity.
Qed.

(** ** What is published, and what the collision-avoidance object is asked *)

Lemma dispatch_queue_valid (a : activity) (m : Mover) :
  Forall (fun c => is_invalid c = false) (ca_wp m) ->
  Forall (fun c => is_invalid c = false) (ca_wp (after (dispatch a m))).
Proof.
  intros Hq. rewrite dispatch_after. destruct a as [telem|com|].
  - cbv zeta. destruct (is_invalid (value_of (candidate telem m))) eqn:Hv;
      destruct (is_testing m); cbn [ca_wp set_ca_wp set_ca]; auto.
  - destruct (mode_request _ _);
      [destruct (mode_of_code _)|destruct (goal_update _ _)]; exact Hq.
  - destruct (current_state m); try exact Hq.
    destruct (ca_wp m) as [|c rest] eqn:Hc; [rewrite Hc; exact Hq|].
    exact (Forall_inv_tail Hq).
Qed.

Lemma dispatch_published_origin (a : activity) (m : Mover) :
  Forall (fun c => is_invalid c = false) (ca_wp m) ->
  Forall (fun c => is_invalid c = false \/ c = goal_wp m)
         (published (effects_of (dispatch a m))).
Proof.
  intros Hq. rewrite dispatch_published. destruct a as [telem|com|];
    cbn [is_tick]; try constructor.
  pose proof (dispatch_effects Tick m) as He. cbn [dispatch] in He. rewrite He.
  destruct (current_state m); cbn; auto.
  destruct (ca_wp m) as [|c rest]; cbn; [constructor|].
  constructor; [left; exact (Forall_inv Hq)|constructor].
Qed.

(** X6.  Starting with only valid waypoints in the queue, whatever is
    delivered and whenever the loop runs, every message the node publishes
    is a waypoint that passed the test against [INVALID_GPS_COOR], or the
    goal waypoint of the start, or a goal update delivered for this plane;
    and the queue still holds only valid waypoints.  So an invalid answer of
    [ca.avoid] is never published. *)
Theorem published_is_goal_or_valid (acts : list activity) (m : Mover)
    (Hq : Forall (fun c => is_invalid c = false) (ca_wp m)) :
  Forall (fun c => is_invalid c = false
                   \/ c = goal_wp m
                   \/ In c (goal_commands (planeID m) acts))
         (published (effects_of (run acts m)))
  /\ Forall (fun c => is_invalid c = false) (ca_wp (after (run acts m))).
Proof.
  revert m Hq. induction acts as [|a acts IH]; intros m Hq.
  - split; [constructor|exact Hq].
  - pose proof (dispatch_queue_valid a m Hq) as Hq1.
    destruct (IH _ Hq1) as [Hpub Hqueue].
    destruct (dispatch_goal a m) as [Hg _].
    destruct (dispatch_identity a m) as (Hid & _).
    rewrite run_cons. cbn [after effects_of fst snd]. split; [|exact Hqueue].
    rewrite published_app. apply Forall_app. split.
    + eapply Forall_impl; [|exact (dispatch_published_origin a m Hq)].
      intros c [Hc|Hc]; auto.
    + eapply Forall_impl; [|exact Hpub].
      rewrite Hid, Hg. intros c [Hc|[Hc|Hc]]; [left; exact Hc| |].
      * destruct a as [telem|com|]; cbn [goal_commands last] in *; auto.
        destruct (goal_update (planeID m) (Gcs com)); cbn [last] in Hc; auto.
        right; right; left. symmetry. exact Hc.
      * destruct a as [telem|com|]; cbn [goal_commands]; auto.
        destruct (goal_update (planeID m) (Gcs com)); auto.
        right; right; right. exact Hc.
Qed.

Lemma dispatch_avoid_calls (a : activity) (m : Mover) :
  avoid_calls (effects_of (dispatch a m))
  = if is_testing m then [] else samples [a].
Proof.
  pose proof (dispatch_effects a m) as He. destruct a as [telem|com|].
  - cbv zeta in He. destruct He as [Hc ->]. rewrite Hc.
    destruct (is_testing m), (is_invalid _); reflexivity.
  - rewrite He.
    destruct (mode_request _ _);
      [destruct (mode_of_code _)|destruct (goal_update _ _)];
      destruct (is_testing m); reflexivity.
  - rewrite He. destruct (is_testing m), (current_state m); try reflexivity;
      destruct (ca_wp m); reflexivity.
Qed.

(** X7.  [ca.avoid] is called once for each telemetry message delivered,
    with that message and in the order of delivery, whatever the mode; and
    when the node was started for testing it is never called. *)
Theorem avoid_called_per_sample (acts : list activity) (m : Mover) :
  avoid_calls (effects_of (run acts m))
  = if is_testing m then [] else samples acts.
Proof.
  revert m. induction acts as [|a acts IH]; intros m.
  - destruct (is_testing m); reflexivity.
  - destruct (dispatch_identity a m) as (_ & Ht & _).
    rewrite run_cons. cbn [effects_of snd].
    rewrite avoid_calls_app, IH, Ht, dispatch_avoid_calls.
    destruct (is_testing m); [reflexivity|].
    destruct a; reflexivity.
Qed.

(** X11.  No execution changes who the node is: the plane id, the testing
    flag and the three initial coordinates are after any execution what they
    were before it. *)
Theorem identity_is_fixed (acts : list activity) (m : Mover) :
  planeID (after (run acts m)) = planeID m
  /\ is_testing (after (run acts m)) = is_testing m
  /\ initialLat (after (run acts m)) = initialLat m
  /\ initialLong (after (run acts m)) = initialLong m
  /\ initialAlt (after (run acts m)) = initialAlt m.
Proof.
  revert m. induction acts as [|a acts IH]; intros m;
    [repeat split; reflexivity|].
  rewrite run_cons. cbn [after fst snd].
  destruct (IH (after (dispatch a m))) as (H1 & H2 & H3 & H4 & H5).
  destruct (dispatch_identity a m) as (G1 & G2 & G3 & G4 & G5).
  rewrite H1, H2, H3, H4, H5. auto.
Qed.

(** ** Start-up and shutdown *)

(** X8.  [init] fails only when the node is not started for testing and
    the identity service call fails, and then it leaves the object as it was
    and does not initialize the collision-avoidance object.  Whenever it
    succeeds the node is left in [ST_RED] with the testing flag as given,
    the queue untouched, and [ca.init] called once, with the plane id the
    node ends up with: 999 when testing, the id of the response otherwise.
    When testing, the outcome of the identity service is ignored and the
    goal waypoint is left as constructed. *)
Theorem init_outcomes (_test : bool) (call : option planeIDGetter.Response)
    (m : Mover) :
  let r := init _test call m in
  (value_of r = false <-> _test = false /\ call = None)
  /\ (value_of r = false -> r = (false, m, []))
  /\ (value_of r = true ->
      current_state (after r) = ST_RED
      /\ is_testing (after r) = _test
      /\ ca_wp (after r) = ca_wp m
      /\ effects_of r = [CaInit (planeID (after r))]
      /\ ca (after r) = ca_init (planeID (after r)) (ca m)
      /\ planeID (after r)
         = if _test then 999
           else match call with
                | Some response => planeIDGetter.planeID response
                | None => planeID m
                end)
  /\ (_test = true ->
      goal_wp (after r) = goal_wp m /\ r = init true None m).
Proof.
  cbv zeta. destruct _test; [|destruct call as [response|]].
  - rewrite (init_test call m). cbn [value_of after effects_of fst snd].
    split; [split; [discriminate|intros [Hf _]; discriminate Hf]|].
    split; [discriminate|].
    split; intros _; repeat split; reflexivity.
  - rewrite init_success. cbn [value_of after effects_of fst snd].
    split; [split; [discriminate|intros [_ Hf]; discriminate Hf]|].
    split; [discriminate|].
    split; [intros _; repeat split; reflexivity|discriminate].
  - rewrite init_failure. cbn [value_of after effects_of fst snd].
    split; [split; auto|].
    split; [reflexivity|]. split; discriminate.
Qed.

(** X9.  A node never publishes before it is told to: from the start of
    [main], as long as no meta command for the plane id the node has taken
    is delivered, nothing is published, whatever telemetry and goal updates
    arrive and however long the loop runs.  And when [init] fails, [main]
    does nothing at all: no callback is served and the loop is not
    entered. *)
Theorem node_starts_halted (is_test : bool) (call : option planeIDGetter.Response)
    (acts : list activity) (m : Mover)
    (Hquiet : forallb (fun a => negb (mode_request
                                        (planeID (after (init is_test call m))) a))
                      acts = true) :
  published (effects_of (main is_test call acts m)) = []
  /\ (value_of (init is_test call m) = false ->
      main is_test call acts m = (tt, m, [])).
Proof.
  assert (Hstart : value_of (init is_test call m) = true ->
                   current_state (after (init is_test call m)) = ST_RED
                   /\ published (effects_of (init is_test call m)) = []).
  { destruct is_test; [rewrite init_test; split; reflexivity|].
    destruct call; [rewrite init_success; split; reflexivity|].
    rewrite init_failure. discriminate. }
  assert (Hfail : value_of (init is_test call m) = false ->
                  init is_test call m = (false, m, [])).
  { destruct is_test; [rewrite init_test; discriminate|].
    destruct call; [rewrite init_success; discriminate|].
    rewrite init_failure. reflexivity. }
  unfold main. rewrite bind_unfold.
  destruct (value_of (init is_test call m)) eqn:Hok.
  - destruct (Hstart eq_refl) as [Hred Hnone]. split; [|discriminate].
    cbn [effects_of snd]. fold (effects_of (init is_test call m)).
    rewrite published_app, Hnone. cbn [app].
    exact (run_red_silent acts _ Hred Hquiet).
  - rewrite (Hfail eq_refl). split; [reflexivity|]. intros _. reflexivity.
Qed.

(** X12.  A node constructed with an empty queue never has more than one
    waypoint pending, at any point of any run of [main]. *)
Theorem queue_never_backs_up (is_test : bool) (call : option planeIDGetter.Response)
    (acts : list activity) (m : Mover) (Hempty : ca_wp m = []) :
  (length (ca_wp (after (main is_test call acts m))) <= 1)%nat.
Proof.
  unfold main. rewrite bind_unfold. cbn [after fst snd].
  fold (after (init is_test call m)).
  destruct (value_of (init is_test call m)).
  - apply single_slot_run. rewrite init_keeps_queue, Hempty. cbn. lia.
  - cbn [ret after fst snd]. rewrite init_keeps_queue, Hempty. cbn. lia.
Qed.

(** ** The queue across iterations *)

(** X13.  Left alone in [ST_GREEN_CA_ON], the loop empties the queue from the
    front, one waypoint per iteration, and then falls silent: [ticks]
    iterations publish the first [ticks] entries in order and leave the
    rest. *)
Theorem guided_loop_drains (ticks : nat) (m : Mover)
    (Hon : current_state m = ST_GREEN_CA_ON) :
  published (effects_of (move ticks m)) = firstn ticks (ca_wp m)
  /\ ca_wp (after (move ticks m)) = skipn ticks (ca_wp m)
  /\ current_state (after (move ticks m)) = ST_GREEN_CA_ON.
Proof.
  revert m Hon. induction ticks as [|n IH]; intros m Hon.
  - repeat split; solve [reflexivity | exact Hon].
  - rewrite move_succ. cbn [after effects_of fst snd].
    rewrite published_app. destruct (ca_wp m) as [|c rest] eqn:Hq.
    + rewrite (move_iteration_ca_on_empty m Hon Hq).
      cbn [after effects_of fst snd published app].
      destruct (IH m Hon) as (Hp & Hr & Hs).
      rewrite Hp, Hr, Hs, Hq. destruct n; repeat split; reflexivity.
    + rewrite (move_iteration_ca_on_pending m c rest Hon Hq).
      cbn [after effects_of fst snd published app].
      destruct (IH (set_ca_wp rest m) Hon) as (Hp & Hr & Hs).
      rewrite Hp, Hr, Hs. repeat split; reflexivity.
Qed.

(** ** Testing, and coordinates that are not numbers *)

(** X14.  Started for testing and in [ST_GREEN_CA_ON], the node answers a
    telemetry message by publishing its goal waypoint at the next iteration,
    without calling the collision-avoidance object; unless the goal waypoint
    is at the invalid position, in which case the telemetry message changes
    nothing and the iteration publishes what was pending, if anything. *)
Theorem testing_guided_publishes_goal (m : Mover) (telem : Telemetry)
    (Htest : is_testing m = true)
    (Hon : current_state m = ST_GREEN_CA_ON) :
  published (effects_of (run [Telem telem; Tick] m))
  = (if is_invalid (goal_wp m) then firstn 1 (ca_wp m) else [goal_wp m])
  /\ calls_ca (effects_of (run [Telem telem; Tick] m)) = false.
Proof.
  destruct (candidate_frame telem m) as (Hc & _). rewrite Htest in Hc.
  pose proof (dispatch_after (Telem telem) m) as Ha.
  pose proof (dispatch_effects (Telem telem) m) as He.
  cbv beta iota zeta in Ha, He. destruct He as [Hec He].
  rewrite Hec, Hc, Htest in He. rewrite Hc, Htest in Ha.
  pose proof (dispatch_effects Tick) as Ht.
  rewrite !run_cons, run_nil. unfold effects_of in *. cbn [snd].
  rewrite Ha, He.
  destruct (is_invalid (goal_wp m)).
  - rewrite (Ht m), Hon. destruct (ca_wp m); split; reflexivity.
  - rewrite (Ht (set_ca_wp [goal_wp m] m)).
    change (current_state (set_ca_wp [goal_wp m] m)) with (current_state m).
    rewrite Hon. split; reflexivity.
Qed.

Lemma SFcompare_refl (x : spec_float) :
  x <> S754_nan -> SFcompare x x = Some Eq.
Proof.
  destruct x as [s|s| |s mantissa e]; intros Hx;
    try reflexivity; try (destruct s; reflexivity).
  - congruence.
  - cbn. destruct s; rewrite Z.compare_refl, Pos.compare_cont_refl; reflexivity.
Qed.

(** A NaN compares equal to nothing. *)
Lemma nan_equals_nothing (x y : float) :
  is_nan x = true -> (x =? y)%float = false /\ (y =? x)%float = false.
Proof.
  unfold is_nan. intros Hx. apply negb_true_iff in Hx.
  rewrite FloatAxioms.eqb_spec in Hx. rewrite !FloatAxioms.eqb_spec.
  unfold SFeqb in *.
  destruct (Prim2SF x) as [s|s| |s mantissa e] eqn:Hpx;
    try (rewrite SFcompare_refl in Hx by discriminate; discriminate Hx).
  split; [reflexivity|].
  destruct (Prim2SF y) as [[]|[]| |[] ? ?]; reflexivity.
Qed.

(** X15.  A candidate with a NaN among its latitude, longitude and altitude
    is never taken for the invalid waypoint, whatever [INVALID_GPS_COOR] is:
    the telemetry callback installs it, and in [ST_GREEN_CA_ON] the next
    iteration publishes it. *)
Theorem nan_candidate_is_installed (telem : Telemetry) (m : Mover)
    (Hnan : is_nan (Command.latitude (value_of (candidate telem m))) = true
            \/ is_nan (Command.longitude (value_of (candidate telem m))) = true
            \/ is_nan (Command.altitude (value_of (candidate telem m))) = true) :
  is_invalid (value_of (candidate telem m)) = false
  /\ ca_wp (after (all_telem_callback telem m)) = [value_of (candidate telem m)]
  /\ (current_state m = ST_GREEN_CA_ON ->
      published (effects_of (run [Telem telem; Tick] m))
      = [value_of (candidate telem m)]).
Proof.
  assert (Hvalid : is_invalid (value_of (candidate telem m)) = false).
  { unfold is_invalid.
    destruct Hnan as [H|[H|H]];
      destruct (nan_equals_nothing _ INVALID_GPS_COOR H) as [-> _];
      rewrite ?andb_false_r; reflexivity. }
  pose proof (telem_queue telem m) as Hq. rewrite Hvalid in Hq.
  split; [exact Hvalid|]. split; [exact Hq|]. intros Hon.
  destruct (telem_frame telem m) as (_ & Hs & _ & Hp). rewrite Hon in Hs.
  rewrite !run_cons. cbn [dispatch effects_of after fst snd run ret].
  rewrite published_app, Hp.
  rewrite (move_iteration_ca_on_pending _ _ [] Hs Hq). reflexivity.
Qed.

(** X16.  A command for this plane with a NaN latitude is never a meta
    command, whatever its longitude and whatever [EMERGENCY_PROTOCOL_LAT]
    is: it becomes the goal waypoint and is given to [ca.setGoalWaypoint],
    and the mode stays as it was. *)
Theorem nan_latitude_is_goal (m : Mover) (com : Command.t)
    (Hid : planeID m = Command.planeID com)
    (Hnan : is_nan (Command.latitude com) = true) :
  gcs_command_callback com m
  = (tt, set_ca (ca_setGoalWaypoint com (ca m)) (set_goal_wp com m),
     [Lock goal_wp_lock; Unlock goal_wp_lock; CaSetGoalWaypoint com]).
Proof.
  destruct (nan_equals_nothing _ EMERGENCY_PROTOCOL_LAT Hnan) as [Hlat _].
  exec. rewrite Hid, Z.eqb_refl, Hlat. reflexivity.
Qed.

(** * The two threads, step by step *)

Lemma loop_step_unfold (pt : loop_point) (m : Mover) :
  loop_step pt m
  = match pt with
    | AtTop =>
        (Snapshot (current_state m), m,
         [Lock state_change_lock; Unlock state_change_lock])
    | Snapshot _ =>
        match current_state m with
        | ST_RED => (AtTop, m, [])
        | ST_GREEN_CA_OFF => (AsleepGoal, m, [Sleep 0.25%float])
        | ST_GREEN_CA_ON => (AsleepCa, m, [Sleep 0.25%float])
        end
    | AsleepGoal =>
        (AtTop, m,
         [Lock goal_wp_lock; Unlock goal_wp_lock; Publish (goal_wp m)])
    | AsleepCa =>
        match ca_wp m with
        | [] => (AtTop, m, [Lock ca_wp_lock; Unlock ca_wp_lock])
        | com :: rest =>
            (AtTop, set_ca_wp rest m,
             [Lock ca_wp_lock; Unlock ca_wp_lock; Publish com])
        end
    end.
Proof.
  destruct pt as [|temp| |]; cbn [loop_step].
  - reflexivity.
  - exec. destruct (current_state m); reflexivity.
  - rewrite bind_unfold, goalCommandPublish_unfold. reflexivity.
  - rewrite bind_unfold, caCommandPublish_unfold.
    destruct (ca_wp m); reflexivity.
Qed.


Lemma interleave_cons (e : event) (events : list event) (pt : loop_point)
    (m : Mover) :
  interleave (e :: events) pt m
  = (value_of (interleave events (value_of (occur e pt m)) (after (occur e pt m))),
     after (interleave events (value_of (occur e pt m)) (after (occur e pt m))),
     effects_of (occur e pt m)
     ++ effects_of (interleave events (value_of (occur e pt m))
                      (after (occur e pt m)))).
Proof. cbn [interleave]. apply bind_unfold. Qed.


(** Not interrupted, the steps of an iteration are the iteration. *)
Lemma steps_are_the_iteration (m : Mover) :
  interleave (repeat Advance (iteration_steps m)) AtTop m
  = (AtTop, after (move_iteration m), effects_of (move_iteration m)).
Proof.
  unfold iteration_steps. destruct (current_state m) eqn:Hs; cbn [repeat];
    rewrite !interleave_cons; cbn [occur interleave ret];
    rewrite !loop_step_unfold;
    cbn [value_of after effects_of fst snd]; rewrite ?loop_step_unfold, ?Hs;
    cbn [value_of after effects_of fst snd];  rewrite ?loop_step_unfold.
  - rewrite (move_iteration_red m Hs). reflexivity.
  - rewrite (move_iteration_ca_off m Hs). reflexivity.
  - destruct (ca_wp m) as [|c rest] eqn:Hq.
    + rewrite (move_iteration_ca_on_empty m Hs Hq). reflexivity.
    + rewrite (move_iteration_ca_on_pending m c rest Hs Hq). reflexivity.
Qed.









End MoverFacts.

(** * The claims on the concrete configuration *)

Import Fixture.

(** C1 on plane 7, halted: an iteration publishes nothing, and neither does
    an execution with telemetry, a new goal, a meta command for plane 8 and
    three iterations. *)
Lemma halted_publishes_nothing_witness :
  move_iteration halted
  = (tt, halted, [Lock state_change_lock; Unlock state_change_lock])
  /\ published (effects_of (move 5 halted)) = []
  /\ published
       (effects_of
          (run [Telem sample7; Tick; Gcs goal8; Tick; Gcs (meta 8 3%float); Tick]
               halted)) = [].
Proof.
  destruct (halted_publishes_nothing halted eq_refl) as (Htick & Hmove & Hrun).
  split; [exact Htick|]. split; [apply Hmove|]. apply Hrun. reflexivity.
Defined.

(** C2 on plane 7, guided, with [avoid4] pending: the iteration publishes
    [avoid4] and empties the queue, the next one publishes nothing; and a
    telemetry callback followed by two iterations publishes its candidate
    once. *)
Lemma avoid_guided_pops_once_witness :
  acquisitions ca_wp_lock (effects_of (move_iteration guided_pending)) = 1%nat
  /\ published (effects_of (move_iteration guided_pending)) = [avoid4]
  /\ published
       (effects_of (move_iteration (after (move_iteration guided_pending)))) = []
  /\ published (effects_of (run [Telem sample7; Tick; Tick] guided_pending))
     = [avoid7].
Proof.
  destruct (avoid_guided_pops_once guided_pending eq_refl)
    as (Hlock & _ & _ & Hpub & Hsecond & Hfresh & _).
  split; [exact Hlock|]. split; [exact Hpub|].
  split; [apply Hsecond; cbn; lia|]. apply (Hfresh sample7). reflexivity.
Defined.

(** C3 on plane 7, direct, goal waypoint [goal7]: three iterations publish
    [goal7] three times, also with telemetry and a foreign command in
    between; after the new goal [goal8] the next iteration publishes
    [goal8]. *)
Lemma direct_goal_keepalive_witness :
  published (effects_of (move 3 direct)) = [goal7; goal7; goal7]
  /\ published
       (effects_of
          (run [Tick; Telem sample7; Tick; Gcs (meta 8 2%float); Tick] direct))
     = [goal7; goal7; goal7]
  /\ published (effects_of (run [Gcs goal8; Tick] direct)) = [goal8].
Proof.
  destruct (direct_goal_keepalive direct eq_refl) as (_ & Hmove & Hrun & _ & Hnew & _).
  split; [apply (Hmove 3%nat)|]. split; [apply Hrun; reflexivity|].
  apply Hnew. reflexivity.
Defined.

(** C4 on plane 7, halted: the meta command with longitude 3
    ([META_START_CA_OFF_LON] here) puts the node in [ST_GREEN_CA_OFF] and
    leaves the goal waypoint alone. *)
Lemma meta_command_sets_mode_witness :
  gcs_command_callback (meta 7 3%float) halted
  = (tt, direct, [Lock state_change_lock; Unlock state_change_lock])
  /\ goal_wp (after (gcs_command_callback (meta 7 3%float) halted)) = goal7.
Proof.
  assert (Hlabels : labels_distinct) by (repeat split; discriminate).
  destruct (meta_command_sets_mode (defs := defs) halted (meta 7 3%float)
              eq_refl eq_refl Hlabels)
    as (_ & _ & Hoff & Hgoal & _).
  split; [exact (Hoff eq_refl)|exact Hgoal].
Defined.

(** C7 on plane 7, guided: a stop command for plane 8 changes nothing. *)
Lemma foreign_command_ignored_witness :
  gcs_command_callback (meta 8 2%float) guided = (tt, guided, []).
Proof. apply foreign_command_ignored. discriminate. Defined.

(** C10 on plane 7, guided: a meta command with longitude 9 changes
    nothing. *)
Lemma unknown_meta_code_dropped_witness :
  gcs_command_callback (meta 7 9%float) guided = (tt, guided, []).
Proof.
  apply unknown_meta_code_dropped;
    [reflexivity | reflexivity | discriminate | discriminate | discriminate].
Defined.

(** C9 as written fails: with [avoid4] pending, the telemetry callback for
    [sample7] leaves only [avoid7] in the queue; [avoid4] is gone and was
    never published. *)
Lemma telemetry_discards_pending :
  In avoid4 (ca_wp guided_pending)
  /\ ca_wp (after (all_telem_callback sample7 guided_pending)) = [avoid7]
  /\ published (effects_of (all_telem_callback sample7 guided_pending)) = []
  /\ ~ In avoid4 (ca_wp (after (all_telem_callback sample7 guided_pending)))
  /\ ~ telemetry_keeps_pending.
Proof.
  assert (Hgone : ~ In avoid4 [avoid7]).
  { intros [H|[]].
    apply (f_equal (fun c => (Command.latitude c =? 4)%float)) in H.
    vm_compute in H. discriminate H. }
  split; [left; reflexivity|]. split; [reflexivity|]. split; [reflexivity|].
  split; [exact Hgone|].
  intros Hkeep. apply Hgone.
  exact (Hkeep sample7 guided_pending avoid4 (or_introl eq_refl)).
Qed.

(** C5.  [init] on a freshly constructed node, the identity service
    answering plane 7 at latitude 1, longitude 2, altitude 3: the call
    succeeds, the goal waypoint gets the id, the latitude, the longitude and
    the command kind 2, the mode is [ST_RED] and the collision-avoidance
    object is initialized with 7; but the altitude of the goal waypoint is
    still the 0 it was constructed with, not 3, and [initialAlt] holds the
    latitude. *)
Theorem init_leaves_altitude_unseeded :
  let r := init false (Some response7) constructed in
  value_of r = true
  /\ effects_of r = [CaInit 7]
  /\ current_state (after r) = ST_RED
  /\ goal_wp (after r) = Command.mk 7 1%float 2%float 0%float 2 2
  /\ Command.altitude (goal_wp (after r)) = Command.altitude (goal_wp constructed)
  /\ (Command.altitude (goal_wp (after r))
      =? planeIDGetter.initialAltitude response7)%float = false
  /\ initialAlt (after r) = planeIDGetter.initialLatitude response7.
Proof. cbv zeta. rewrite init_success. repeat split. Qed.

(** ** Further runs of the model *)

(** The conversion drops the fraction: longitude 3.5 is the code 3. *)
Example meta_code_is_truncated :
  current_state (after (gcs_command_callback (meta 7 3.5%float) halted))
  = ST_GREEN_CA_OFF.
Proof. reflexivity. Qed.

(** The stop code halts a guided node; the same command for plane 8 does
    not. *)
Example stop_halts_guided :
  current_state (after (gcs_command_callback (meta 7 2%float) guided)) = ST_RED
  /\ current_state (after (gcs_command_callback (meta 8 2%float) guided))
     = ST_GREEN_CA_ON.
Proof. split; reflexivity. Qed.

(** Taking from an empty queue gives nothing and leaves it empty; after one
    installation it gives that waypoint, then nothing. *)
Example pop_after_push :
  popAvoidance guided = (None, guided, [Lock ca_wp_lock; Unlock ca_wp_lock])
  /\ value_of (popAvoidance (after (pushAvoidance avoid7 guided))) = Some avoid7
  /\ value_of
       (popAvoidance (after (popAvoidance (after (pushAvoidance avoid7 guided)))))
     = None.
Proof. repeat split; reflexivity. Qed.

(** When testing, the telemetry callback installs the goal waypoint and
    does not call the collision-avoidance object. *)
Example testing_uses_goal :
  all_telem_callback sample7 (set_is_testing true guided)
  = (tt, set_ca_wp [goal7] (set_is_testing true guided),
     [Lock goal_wp_lock; Unlock goal_wp_lock; Lock ca_wp_lock; Unlock ca_wp_lock]).
Proof. reflexivity. Qed.

(** A candidate at the invalid position is dropped. *)
Example invalid_sample_dropped :
  all_telem_callback (mkPosition (-2000)%float (-2000)%float (-2000)%float)
    guided_pending
  = (tt, guided_pending,
     [CaAvoid (mkPosition (-2000)%float (-2000)%float (-2000)%float)]).
Proof. reflexivity. Qed.

(** ** The further properties on the concrete configuration *)

(** X6 on plane 7, guided with [avoid4] pending: an execution with
    iterations, a goal update, a change to direct mode and telemetry. *)
Lemma published_is_goal_or_valid_witness :
  Forall (fun c => is_invalid c = false
                   \/ c = goal_wp guided_pending
                   \/ In c (goal_commands (planeID guided_pending)
                              [Tick; Gcs goal8; Gcs (meta 7 3%float); Tick;
                               Telem sample7]))
         (published
            (effects_of
               (run [Tick; Gcs goal8; Gcs (meta 7 3%float); Tick; Telem sample7]
                    guided_pending)))
  /\ Forall (fun c => is_invalid c = false)
            (ca_wp
               (after
                  (run [Tick; Gcs goal8; Gcs (meta 7 3%float); Tick; Telem sample7]
                       guided_pending))).
Proof.
  apply (published_is_goal_or_valid (defs := defs)).
  constructor; [reflexivity|constructor].
Defined.

(** X9 on a freshly constructed node that becomes plane 7: telemetry, a
    goal update and a meta command for plane 8 are served and the loop runs,
    and nothing is published. *)
Lemma node_starts_halted_witness :
  published
    (effects_of
       (main false (Some response7)
          [Telem sample7; Tick; Gcs goal8; Tick; Gcs (meta 8 1%float); Tick]
          constructed)) = []
  /\ (value_of (init false (Some response7) constructed) = false ->
      main false (Some response7)
        [Telem sample7; Tick; Gcs goal8; Tick; Gcs (meta 8 1%float); Tick]
        constructed
      = (tt, constructed, [])).
Proof. apply (node_starts_halted (defs := defs)). reflexivity. Defined.

(** X12 on a freshly constructed node: two telemetry messages in a row
    leave one waypoint pending. *)
Lemma queue_never_backs_up_witness :
  (length
     (ca_wp
        (after
           (main false (Some response7)
              [Telem sample4; Telem sample7; Gcs (meta 7 1%float); Telem sample4]
              constructed))) <= 1)%nat.
Proof. apply (queue_never_backs_up (defs := defs)). reflexivity. Defined.

(** X13 on plane 7, guided with [avoid4] pending: three iterations publish
    [avoid4] once. *)
Lemma guided_loop_drains_witness :
  published (effects_of (move 3 guided_pending)) = [avoid4]
  /\ ca_wp (after (move 3 guided_pending)) = []
  /\ current_state (after (move 3 guided_pending)) = ST_GREEN_CA_ON.
Proof. apply (guided_loop_drains 3 guided_pending). reflexivity. Defined.

(** X14 on plane 7, guided and testing: telemetry and one iteration
    publish [goal7]. *)
Lemma testing_guided_publishes_goal_witness :
  published
    (effects_of (run [Telem sample7; Tick] (set_is_testing true guided)))
  = [goal7]
  /\ calls_ca
       (effects_of (run [Telem sample7; Tick] (set_is_testing true guided)))
     = false.
Proof.
  apply (testing_guided_publishes_goal (defs := defs)
           (set_is_testing true guided) sample7); reflexivity.
Defined.

(** X15 on plane 7, guided: a sample with a NaN latitude yields a waypoint
    that is installed. *)
Lemma nan_candidate_is_installed_witness :
  is_invalid (value_of (candidate (mkPosition nan 6%float 7%float) guided)) = false
  /\ ca_wp (after (all_telem_callback (mkPosition nan 6%float 7%float) guided))
     = [value_of (candidate (mkPosition nan 6%float 7%float) guided)]
  /\ (current_state guided = ST_GREEN_CA_ON ->
      published
        (effects_of (run [Telem (mkPosition nan 6%float 7%float); Tick] guided))
      = [value_of (candidate (mkPosition nan 6%float 7%float) guided)]).
Proof.
  apply (nan_candidate_is_installed (defs := defs)). left. reflexivity.
Defined.

(** X16 on plane 7, halted: a command with a NaN latitude and the
    start-avoidance code in its longitude becomes the goal waypoint; the
    node stays halted. *)
Lemma nan_latitude_is_goal_witness :
  gcs_command_callback (Command.mk 7 nan 1%float 0%float 0 0) halted
  = (tt,
     set_ca (ca_setGoalWaypoint (Command.mk 7 nan 1%float 0%float 0 0) (ca halted))
            (set_goal_wp (Command.mk 7 nan 1%float 0%float 0 0) halted),
     [Lock goal_wp_lock; Unlock goal_wp_lock;
      CaSetGoalWaypoint (Command.mk 7 nan 1%float 0%float 0 0)]).
Proof.
  apply (nan_latitude_is_goal (defs := defs)); reflexivity.
Defined.

(** ** The two threads step by step, on the concrete configuration *)


(** The message that follows the stop: with the publish thread of a node in
    direct mode asleep, the stop command is handled and the thread then
    publishes [goal7], the node being in [ST_RED]. *)
Example publish_after_stop :
  interleave [Advance; Advance; Serve (OnGcs (meta 7 2%float)); Advance]
    AtTop direct
  = (AtTop, halted,
     [Lock state_change_lock; Unlock state_change_lock; Sleep 0.25%float;
      Lock state_change_lock; Unlock state_change_lock;
      Lock goal_wp_lock; Unlock goal_wp_lock; Publish goal7]).
Proof. reflexivity. Qed.

